(** * junit-to-ctrf: the conversion of JUnit test cases to CTRF tests

    A shallow embedding of [src/convert.ts]: the sanitizer
    ([sanitizeString]), the output-line splitter ([convertOutputToArray]),
    the retry reconciler ([convertRetryAttempts], [processTestWithRetries])
    and the report assembler ([convertToCTRFTest], [createCTRFReport]),
    together with the parts of the JavaScript run time they call
    (strings of UTF-16 code units, [trim], [split], [parseFloat],
    [parseInt], [Math.round] and IEEE 754 binary64 multiplication). *)

From Stdlib Require Import ZArith List Bool Lia String Ascii.
From Stdlib Require Import Floats.SpecFloat.
Import ListNotations.

Local Open Scope Z_scope.

(** ** JavaScript strings *)

Module JS.

(** A JavaScript string is a sequence of 16-bit code units. *)
Definition codeUnit := Z.
Definition jsstring := list codeUnit.

(** A string literal of the source, one code unit per character. *)
Definition lit (s : string) : jsstring :=
  map (fun a => Z.of_N (N_of_ascii a)) (list_ascii_of_string s).

(** `undefined`, `null` and the empty string are falsy; every other string
    is truthy. *)
Definition truthy (s : option jsstring) : bool :=
  match s with
  | Some (_ :: _) => true
  | _ => false
  end.

(** `a || b` on values that are a string or `undefined`. *)
Definition or_else (a b : option jsstring) : option jsstring :=
  if truthy a then a else b.

(** What a template literal prints for a value that may be `undefined`. *)
Definition toString (s : option jsstring) : jsstring :=
  match s with
  | Some s => s
  | None => lit "undefined"
  end.

(** WhiteSpace and LineTerminator of ECMAScript: the class [\s] of regular
    expressions and the characters [trim] strips. *)
Definition isWhiteSpace (c : codeUnit) : bool :=
  (c =? 0x09) || (c =? 0x0A) || (c =? 0x0B) || (c =? 0x0C) || (c =? 0x0D)
  || (c =? 0x20) || (c =? 0xA0) || (c =? 0x1680)
  || ((0x2000 <=? c) && (c <=? 0x200A))
  || (c =? 0x2028) || (c =? 0x2029) || (c =? 0x202F) || (c =? 0x205F)
  || (c =? 0x3000) || (c =? 0xFEFF).

Fixpoint trimStart (s : jsstring) : jsstring :=
  match s with
  | c :: r => if isWhiteSpace c then trimStart r else s
  | [] => []
  end.

Definition trimEnd (s : jsstring) : jsstring := rev (trimStart (rev s)).

Definition trim (s : jsstring) : jsstring := trimEnd (trimStart s).

(** [s.split(sep)] for a separator of one code unit: never the empty list. *)
Fixpoint split (sep : codeUnit) (s : jsstring) : list jsstring :=
  match s with
  | [] => [[]]
  | c :: r =>
      if c =? sep then [] :: split sep r
      else match split sep r with
           | h :: t => (c :: h) :: t
           | [] => [[c]]
           end
  end.

Fixpoint startsWith (p s : jsstring) : bool :=
  match p, s with
  | [], _ => true
  | a :: p', b :: s' => (a =? b) && startsWith p' s'
  | _ :: _, [] => false
  end.

(** [arr.map((x, index) => f x index)], the index counted from [i]. *)
Fixpoint mapi {A B : Type} (f : A -> nat -> B) (i : nat) (l : list A)
  : list B :=
  match l with
  | [] => []
  | x :: r => f x i :: mapi f (S i) r
  end.

End JS.

(** ** JavaScript numbers: IEEE 754 binary64 *)

Module Num.

Import JS.

Definition prec : Z := 53.
Definition emax : Z := 1024.

(** A Number is a binary64 value, in the representation of the standard
    library's specification of floating-point arithmetic. *)
Definition Number := spec_float.

Definition NaN : Number := S754_nan.
Definition Infinity : Number := S754_infinity false.
Definition posZero : Number := S754_zero false.

(** The Number value of an integer (round to nearest, ties to even). *)
Definition ofZ (n : Z) : Number := binary_normalize prec emax n 0 false.

Definition mul (x y : Number) : Number := SFmul prec emax x y.

(** The Number value of the quotient of two positive integers, rounded
    once. *)
Definition ofQuotient (n d : positive) : Number :=
  SFdiv prec emax (S754_finite false n 0) (S754_finite false d 0).

(** The Number value of [m * 10 ^ e10], for a literal with digits [m]. *)
Definition ofDecimal (m e10 : Z) : Number :=
  match m with
  | Zpos p =>
      if 0 <=? e10 then ofZ (m * 10 ^ e10)
      else ofQuotient p (Z.to_pos (10 ^ (- e10)))
  | _ => posZero
  end.

(** The exact integer a Number stands for, when it stands for one. *)
Definition toZ (x : Number) : option Z :=
  match x with
  | S754_zero _ => Some 0
  | S754_finite s m e =>
      if 0 <=? e then Some (cond_Zopp s (Zpos m * 2 ^ e))
      else if Zpos m mod 2 ^ (- e) =? 0
           then Some (cond_Zopp s (Zpos m / 2 ^ (- e)))
           else None
  | _ => None
  end.

(** A mantissa and an exponent whose value [m * 2 ^ e] is an integer. *)
Definition integral (m e : Z) : Prop := 0 <= e \/ m mod 2 ^ (- e) = 0.

Definition isFinite (x : Number) : bool :=
  match x with
  | S754_zero _ | S754_finite _ _ _ => true
  | _ => false
  end.

Definition isNaN (x : Number) : bool :=
  match x with
  | S754_nan => true
  | _ => false
  end.

(** The sign bit; [false] for NaN. *)
Definition signBit (x : Number) : bool :=
  match x with
  | S754_zero s | S754_infinity s | S754_finite s _ _ => s
  | S754_nan => false
  end.

(** [Math.round]: a value that is not finite or is already integral is
    returned as it is; otherwise the nearest integer, the one towards
    +Infinity on a tie, and a zero of the sign of the argument when that
    integer is 0. *)
Definition Math_round (x : Number) : Number :=
  match x with
  | S754_finite s m e =>
      match toZ x with
      | Some _ => x
      | None =>
          let n := (2 * cond_Zopp s (Zpos m) + 2 ^ (- e)) / 2 ^ (1 - e) in
          if n =? 0 then S754_zero s else ofZ n
      end
  | _ => x
  end.

(** *** parseFloat *)

Definition isDigit (c : codeUnit) : bool := (0x30 <=? c) && (c <=? 0x39).

(** The longest run of decimal digits at the head of [s], as digit values,
    and what follows it. *)
Fixpoint takeDigits (s : jsstring) : list Z * jsstring :=
  match s with
  | c :: r =>
      if isDigit c
      then let '(ds, rest) := takeDigits r in (c - 0x30 :: ds, rest)
      else ([], s)
  | [] => ([], [])
  end.

Definition digitsValue (ds : list Z) : Z :=
  fold_left (fun acc d => 10 * acc + d) ds 0.

(** ExponentPart, when one is at the head of [s]: [e] or [E], an optional
    sign and at least one digit.  0 when there is none. *)
Definition parseExponent (s : jsstring) : Z :=
  match s with
  | c :: r =>
      if (c =? 0x65) || (c =? 0x45) then
        let '(sign, r') :=
          match r with
          | x :: r' =>
              if x =? 0x2B then (1, r')
              else if x =? 0x2D then (-1, r')
              else (1, r)
          | [] => (1, r)
          end in
        match fst (takeDigits r') with
        | [] => 0
        | ds => sign * digitsValue ds
        end
      else 0
  | [] => 0
  end.

(** The value of the longest prefix of [s] that is a
    StrUnsignedDecimalLiteral; NaN when there is none. *)
Definition parseUnsigned (s : jsstring) : Number :=
  if startsWith (lit "Infinity") s then Infinity
  else
    let '(ip, r1) := takeDigits s in
    if startsWith [0x2E] r1 then
      let '(fp, r3) := takeDigits (tl r1) in
      match ip ++ fp with
      | [] => NaN
      | ds => ofDecimal (digitsValue ds)
                        (parseExponent r3 - Z.of_nat (List.length fp))
      end
    else
      match ip with
      | [] => NaN
      | _ => ofDecimal (digitsValue ip) (parseExponent r1)
      end.

Definition parseFloat (str : jsstring) : Number :=
  let s := trimStart str in
  if startsWith [0x2D] s then SFopp (parseUnsigned (tl s))
  else if startsWith [0x2B] s then parseUnsigned (tl s)
  else parseUnsigned s.

(** A text that, after its leading white space, starts with a minus
    sign. *)
Definition hasMinusSign (str : jsstring) : bool :=
  startsWith [0x2D] (trimStart str).

(** *** parseInt, without a radix argument *)

Definition digitOfRadix (radix c : Z) : option Z :=
  let v :=
    if isDigit c then c - 0x30
    else if (0x61 <=? c) && (c <=? 0x7A) then c - 0x61 + 10
    else if (0x41 <=? c) && (c <=? 0x5A) then c - 0x41 + 10
    else 36 in
  if v <? radix then Some v else None.

Fixpoint takeRadixDigits (radix : Z) (s : jsstring) : list Z :=
  match s with
  | c :: r =>
      match digitOfRadix radix c with
      | Some v => v :: takeRadixDigits radix r
      | None => []
      end
  | [] => []
  end.

Definition parseIntUnsigned (s : jsstring) : Number :=
  let '(radix, body) :=
    if startsWith (lit "0x") s || startsWith (lit "0X") s
    then (16, tl (tl s)) else (10, s) in
  match takeRadixDigits radix body with
  | [] => NaN
  | ds => ofZ (fold_left (fun acc d => radix * acc + d) ds 0)
  end.

Definition parseInt (str : jsstring) : Number :=
  let s := trimStart str in
  if startsWith [0x2D] s then SFopp (parseIntUnsigned (tl s))
  else if startsWith [0x2B] s then parseIntUnsigned (tl s)
  else parseIntUnsigned s.

End Num.

(** ** The converter of [src/convert.ts] *)

Module Convert.

Import JS Num.

(** *** Input: the parsed JUnit records ([types/junit]) *)

Record JUnitRetryAttempt := {
  ra_message : option jsstring;
  ra_type : option jsstring;
  ra_trace : option jsstring;
  ra_systemOut : option jsstring;
  ra_systemErr : option jsstring
}.

(** [suite], [name] and [time] are declared [string]; the converter guards
    them against a missing value ([testCase.time || '0'],
    [sanitizeString (str?: string)]), so they may be [undefined] here. *)
Record JUnitTestCase := {
  tc_suite : option jsstring;
  tc_classname : jsstring;
  tc_name : option jsstring;
  tc_time : option jsstring;
  tc_hasFailure : bool;
  tc_failureTrace : option jsstring;
  tc_failureMessage : option jsstring;
  tc_failureType : option jsstring;
  tc_hasError : bool;
  tc_errorTrace : option jsstring;
  tc_errorMessage : option jsstring;
  tc_errorType : option jsstring;
  tc_file : option jsstring;
  tc_lineno : option jsstring;
  tc_skipped : option bool;
  tc_flakyFailures : option (list JUnitRetryAttempt);
  tc_flakyErrors : option (list JUnitRetryAttempt);
  tc_rerunFailures : option (list JUnitRetryAttempt);
  tc_rerunErrors : option (list JUnitRetryAttempt);
  tc_systemOut : option jsstring;
  tc_systemErr : option jsstring
}.

(** *** Output: the CTRF records *)

Inductive Status := passed | failed | skipped | pending | other.

Definition Status_eqb (a b : Status) : bool :=
  match a, b with
  | passed, passed | failed, failed | skipped, skipped
  | pending, pending | other, other => true
  | _, _ => false
  end.

Record RetryAttempt := {
  at_attempt : nat;
  at_status : Status;
  at_message : option jsstring;
  at_trace : option jsstring;
  at_stdout : option (list jsstring);
  at_stderr : option (list jsstring)
}.

Record Test := {
  name : jsstring;
  status : Status;
  duration : Number;
  filePath : option jsstring;
  line : option Number;
  message : option jsstring;
  trace : option jsstring;
  suite : option jsstring;
  retries : option nat;
  retryAttempts : option (list RetryAttempt);
  flaky : option bool;
  stdout : option (list jsstring);
  stderr : option (list jsstring)
}.

Record Summary := {
  s_tests : nat;
  s_passed : nat;
  s_failed : nat;
  s_skipped : nat;
  s_pending : nat;
  s_other : nat;
  s_start : nat;
  s_stop : nat;
  s_flaky : option nat
}.

Record Tool := { tool_name : jsstring }.

Record Results := {
  tool : Tool;
  summary : Summary;
  tests : list Test;
  environment : option (list (jsstring * jsstring))
}.

Record Report := {
  reportFormat : jsstring;
  specVersion : jsstring;
  generatedBy : jsstring;
  timestamp : jsstring;
  results : Results
}.

(** The result of [processTestWithRetries]. *)
Record TestInfo := {
  ti_retryAttempts : list RetryAttempt;
  retryCount : nat;
  finalStatus : Status;
  isFlaky : bool
}.

(** The replacement text of the surrogate rule, the literal of the source
    as the file stores it: the three characters U+00EF U+00BF U+00BD, which
    are the UTF-8 bytes of U+FFFD. *)
Definition replacementChar : jsstring := [0xEF; 0xBF; 0xBD].

Definition isBOM (c : codeUnit) : bool := c =? 0xFEFF.

(** [[\u0000-\u0008\u000B\u000C\u000E-\u001F\u007F]] *)
Definition isControl (c : codeUnit) : bool :=
  ((0x00 <=? c) && (c <=? 0x08)) || (c =? 0x0B) || (c =? 0x0C)
  || ((0x0E <=? c) && (c <=? 0x1F)) || (c =? 0x7F).

(** [[\uD800-\uDFFF]]: the expression has no [u] flag, so it matches every
    surrogate code unit, paired or not. *)
Definition isSurrogate (c : codeUnit) : bool :=
  (0xD800 <=? c) && (c <=? 0xDFFF).

Definition removeBOM (s : jsstring) : jsstring :=
  filter (fun c => negb (isBOM c)) s.

Definition replaceControl (s : jsstring) : jsstring :=
  map (fun c => if isControl c then 0x20 else c) s.

Definition replaceSurrogates (s : jsstring) : jsstring :=
  flat_map (fun c => if isSurrogate c then replacementChar else [c]) s.

(** `` `l && l.length > 0` `` on an optional array. *)
Definition nonEmpty {A : Type} (l : option (list A)) : bool :=
  match l with
  | Some (_ :: _) => true
  | _ => false
  end.

Definition elements {A : Type} (l : option (list A)) : list A :=
  match l with
  | Some l => l
  | None => []
  end.

Definition hasFlaky (testCase : JUnitTestCase) : bool :=
  nonEmpty (tc_flakyFailures testCase) || nonEmpty (tc_flakyErrors testCase).

Definition hasRerun (testCase : JUnitTestCase) : bool :=
  nonEmpty (tc_rerunFailures testCase) || nonEmpty (tc_rerunErrors testCase).

(** `testCase.skipped` as a condition. *)
Definition isSkipped (testCase : JUnitTestCase) : bool :=
  match tc_skipped testCase with
  | Some true => true
  | _ => false
  end.

(** `testCase.time || '0'` *)
Definition timeText (testCase : JUnitTestCase) : jsstring :=
  toString (or_else (tc_time testCase) (Some (lit "0"))).

Section WithNormalize.

(** [String.prototype.normalize('NFC')] belongs to the JavaScript engine and
    its Unicode tables; the converter is read over any such function.  A
    failure of the call is caught and ignored by the source, which leaves
    the string as it was: a total function covers both outcomes. *)
Variable normalize : jsstring -> jsstring.

Definition sanitizeString (str : option jsstring) : option jsstring :=
  match str with
  | None => None
  | Some str =>
      let s := str in
      let s := removeBOM s in
      let s := replaceControl s in
      let s := replaceSurrogates s in
      let s := normalize s in
      if forallb isWhiteSpace s then None else Some s
  end.

Definition convertOutputToArray (output : option jsstring)
  : option (list jsstring) :=
  match output with
  | None => None
  | Some out =>
      if negb (truthy output) || negb (truthy (Some (trim out))) then None
      else
        Some (map toString
                (filter (fun line =>
                           truthy line
                           && (0 <? List.length (toString line))%nat)
                   (map (fun line => sanitizeString (Some (trim line)))
                      (split 0x0A out))))
  end.

(** An array is truthy even when empty, so `if (stdout)` attaches whatever
    array [convertOutputToArray] returned. *)
Definition convertRetryAttempts (retryAttempts : list JUnitRetryAttempt)
    (startAttempt : nat) : list RetryAttempt :=
  mapi (fun attempt index =>
          {| at_attempt := startAttempt + index;
             at_status := failed;
             at_message := sanitizeString (ra_message attempt);
             at_trace := sanitizeString (ra_trace attempt);
             at_stdout := convertOutputToArray (ra_systemOut attempt);
             at_stderr := convertOutputToArray (ra_systemErr attempt) |})
       0%nat retryAttempts.

(** One of the four blocks of [processTestWithRetries]: when the list is
    there and not empty, push its attempts and advance the counter. *)
Definition pushAttempts (l : option (list JUnitRetryAttempt))
    (st : list RetryAttempt * nat) : list RetryAttempt * nat :=
  let '(retryAttempts, attemptNumber) := st in
  if nonEmpty l
  then (retryAttempts ++ convertRetryAttempts (elements l) attemptNumber,
        (attemptNumber + List.length (elements l))%nat)
  else st.

Definition processTestWithRetries (testCase : JUnitTestCase) : TestInfo :=
  let st := ([], 1%nat) in
  let st := pushAttempts (tc_flakyFailures testCase) st in
  let st := pushAttempts (tc_flakyErrors testCase) st in
  let st := if negb (hasFlaky testCase) then (fst st, 2%nat) else st in
  let st := pushAttempts (tc_rerunFailures testCase) st in
  let st := pushAttempts (tc_rerunErrors testCase) st in
  let finalStatus :=
    if hasFlaky testCase then passed
    else if hasRerun testCase then
      if tc_hasError testCase then failed
      else if tc_hasFailure testCase then failed
      else failed
    else
      if tc_hasFailure testCase || tc_hasError testCase then failed
      else if isSkipped testCase then skipped
      else passed in
  {| ti_retryAttempts := fst st;
     retryCount := List.length (fst st);
     finalStatus := finalStatus;
     isFlaky := hasFlaky testCase |}.

Definition convertToCTRFTest (testCase : JUnitTestCase) (useSuiteName : bool)
  : Test :=
  let testInfo := processTestWithRetries testCase in
  let durationMs :=
    Math_round (mul (parseFloat (timeText testCase)) (ofZ 1000)) in
  let testName :=
    if useSuiteName
    then Some (toString (sanitizeString (tc_suite testCase)) ++ lit ": "
               ++ toString (sanitizeString (tc_name testCase)))
    else sanitizeString (tc_name testCase) in
  let line :=
    if truthy (tc_lineno testCase)
    then Some (parseInt (toString (tc_lineno testCase)))
    else None in
  let hasRetries := (0 <? retryCount testInfo)%nat in
  {| name := toString (or_else testName (Some (lit "Unnamed Test")));
     status := finalStatus testInfo;
     duration := durationMs;
     filePath := tc_file testCase;
     line := line;
     message :=
       or_else
         (sanitizeString
            (or_else (tc_failureMessage testCase) (tc_errorMessage testCase)))
         None;
     trace :=
       or_else
         (sanitizeString
            (or_else (tc_failureTrace testCase) (tc_errorTrace testCase)))
         None;
     suite := sanitizeString (tc_suite testCase);
     retries := if hasRetries then Some (retryCount testInfo) else None;
     retryAttempts :=
       if hasRetries then Some (ti_retryAttempts testInfo) else None;
     flaky := if isFlaky testInfo then Some true else None;
     stdout := convertOutputToArray (tc_systemOut testCase);
     stderr := convertOutputToArray (tc_systemErr testCase) |}.

Definition countStatus (st : Status) (ctrfTests : list Test) : nat :=
  List.length (filter (fun test => Status_eqb (status test) st) ctrfTests).

Definition isFlakyTest (test : Test) : bool :=
  match flaky test with
  | Some true => true
  | _ => false
  end.

(** [now] is the text of [new Date().toISOString()] at the call. *)
Definition createCTRFReport (now : jsstring) (testCases : list JUnitTestCase)
    (toolName : option jsstring)
    (envProps : option (list (jsstring * jsstring)))
    (useSuiteName : option bool) : Report :=
  let ctrfTests :=
    map (fun testCase =>
           convertToCTRFTest testCase
             (match useSuiteName with Some b => b | None => false end))
        testCases in
  let passed_ := countStatus passed ctrfTests in
  let failed_ := countStatus failed ctrfTests in
  let skipped_ := countStatus skipped ctrfTests in
  let pending_ := countStatus pending ctrfTests in
  let other_ := countStatus other ctrfTests in
  let flaky_ := List.length (filter isFlakyTest ctrfTests) in
  let summary :=
    {| s_tests := List.length ctrfTests;
       s_passed := passed_;
       s_failed := failed_;
       s_skipped := skipped_;
       s_pending := pending_;
       s_other := other_;
       s_start := 0;
       s_stop := 0;
       s_flaky := if (0 <? flaky_)%nat then Some flaky_ else None |} in
  let tool :=
    {| tool_name :=
         toString (or_else toolName (Some (lit "junit-to-ctrf"))) |} in
  {| reportFormat := lit "CTRF";
     specVersion := lit "0.0.0";
     generatedBy := lit "junit-to-ctrf";
     timestamp := now;
     results :=
       {| tool := tool;
          summary := summary;
          tests := ctrfTests;
          environment := if nonEmpty envProps then envProps else None |} |}.

End WithNormalize.

(** *** The specification's reading of the reconciler *)

(** Rule 9 of the reconciler, in the specification's order: flaky first,
    then reruns, then the flags of the base record. *)
Definition statusByPriority (testCase : JUnitTestCase) : Status :=
  if hasFlaky testCase then passed
  else if hasRerun testCase then failed
  else if tc_hasFailure testCase || tc_hasError testCase then failed
  else if isSkipped testCase then skipped
  else passed.

(** The number of retry records of a test case, over its four lists. *)
Definition retryRecords (testCase : JUnitTestCase) : nat :=
  (List.length (elements (tc_flakyFailures testCase))
   + List.length (elements (tc_flakyErrors testCase))
   + List.length (elements (tc_rerunFailures testCase))
   + List.length (elements (tc_rerunErrors testCase)))%nat.

(** The number the first attempt of a history carries. *)
Definition firstAttempt (testCase : JUnitTestCase) : nat :=
  if hasFlaky testCase then 1%nat else 2%nat.

Definition attemptNumbers (info : TestInfo) : list nat :=
  map at_attempt (ti_retryAttempts info).

(** What the input format can produce: never [pending], never [other]. *)
Definition producible (st : Status) : bool :=
  match st with
  | passed | failed | skipped => true
  | pending | other => false
  end.

(** A code unit the first two rules of the sanitizer act on. *)
Definition isBOMOrControl (c : codeUnit) : bool := isBOM c || isControl c.

(** A sanitized value in which no surrogate code unit is left. *)
Definition surrogateFree (r : option jsstring) : bool :=
  match r with
  | Some t => negb (existsb isSurrogate t)
  | None => true
  end.

End Convert.

(** ** A normalizer to run the converter on plain text

    On a string whose code units are all below U+0300, or U+FFFD, or the
    CJK compatibility ideograph U+FA6C, every character has combining
    class 0 and none takes part in a composition, so NFC works one unit at
    a time: each unit is kept, except U+FA6C, whose canonical decomposition
    is the single supplementary character U+242EE (UnicodeData.txt,
    [FA6C;CJK COMPATIBILITY IDEOGRAPH-FA6C;Lo;0;L;242EE;...]), the
    surrogate pair D850 DEEE in UTF-16.  The examples below stay within
    these strings. *)

Module Sample.

Import JS Num Convert.

Definition nfcUnit (c : codeUnit) : jsstring :=
  if c =? 0xFA6C then [0xD850; 0xDEEE] else [c].

Definition nfc (s : jsstring) : jsstring := flat_map nfcUnit s.

Definition noAttempt : JUnitRetryAttempt :=
  {| ra_message := None; ra_type := None; ra_trace := None;
     ra_systemOut := None; ra_systemErr := None |}.

(** A passing test case with nothing optional, to vary field by field. *)
Definition plain (suite name time : option jsstring) : JUnitTestCase :=
  {| tc_suite := suite; tc_classname := lit "C"; tc_name := name;
     tc_time := time;
     tc_hasFailure := false; tc_failureTrace := None;
     tc_failureMessage := None; tc_failureType := None;
     tc_hasError := false; tc_errorTrace := None;
     tc_errorMessage := None; tc_errorType := None;
     tc_file := None; tc_lineno := None; tc_skipped := None;
     tc_flakyFailures := None; tc_flakyErrors := None;
     tc_rerunFailures := None; tc_rerunErrors := None;
     tc_systemOut := None; tc_systemErr := None |}.

Definition withRetries (tc : JUnitTestCase)
    (ff fe rf re : option (list JUnitRetryAttempt)) : JUnitTestCase :=
  {| tc_suite := tc_suite tc; tc_classname := tc_classname tc;
     tc_name := tc_name tc; tc_time := tc_time tc;
     tc_hasFailure := tc_hasFailure tc; tc_failureTrace := tc_failureTrace tc;
     tc_failureMessage := tc_failureMessage tc;
     tc_failureType := tc_failureType tc;
     tc_hasError := tc_hasError tc; tc_errorTrace := tc_errorTrace tc;
     tc_errorMessage := tc_errorMessage tc; tc_errorType := tc_errorType tc;
     tc_file := tc_file tc; tc_lineno := tc_lineno tc;
     tc_skipped := tc_skipped tc;
     tc_flakyFailures := ff; tc_flakyErrors := fe;
     tc_rerunFailures := rf; tc_rerunErrors := re;
     tc_systemOut := tc_systemOut tc; tc_systemErr := tc_systemErr tc |}.

Definition withOutput (tc : JUnitTestCase) (out : option jsstring)
  : JUnitTestCase :=
  {| tc_suite := tc_suite tc; tc_classname := tc_classname tc;
     tc_name := tc_name tc; tc_time := tc_time tc;
     tc_hasFailure := tc_hasFailure tc; tc_failureTrace := tc_failureTrace tc;
     tc_failureMessage := tc_failureMessage tc;
     tc_failureType := tc_failureType tc;
     tc_hasError := tc_hasError tc; tc_errorTrace := tc_errorTrace tc;
     tc_errorMessage := tc_errorMessage tc; tc_errorType := tc_errorType tc;
     tc_file := tc_file tc; tc_lineno := tc_lineno tc;
     tc_skipped := tc_skipped tc;
     tc_flakyFailures := tc_flakyFailures tc;
     tc_flakyErrors := tc_flakyErrors tc;
     tc_rerunFailures := tc_rerunFailures tc;
     tc_rerunErrors := tc_rerunErrors tc;
     tc_systemOut := out; tc_systemErr := tc_systemErr tc |}.

Definition withMessages (tc : JUnitTestCase)
    (failureMessage errorMessage : option jsstring) : JUnitTestCase :=
  {| tc_suite := tc_suite tc; tc_classname := tc_classname tc;
     tc_name := tc_name tc; tc_time := tc_time tc;
     tc_hasFailure := true; tc_failureTrace := tc_failureTrace tc;
     tc_failureMessage := failureMessage;
     tc_failureType := tc_failureType tc;
     tc_hasError := tc_hasError tc; tc_errorTrace := tc_errorTrace tc;
     tc_errorMessage := errorMessage; tc_errorType := tc_errorType tc;
     tc_file := tc_file tc; tc_lineno := tc_lineno tc;
     tc_skipped := tc_skipped tc;
     tc_flakyFailures := tc_flakyFailures tc;
     tc_flakyErrors := tc_flakyErrors tc;
     tc_rerunFailures := tc_rerunFailures tc;
     tc_rerunErrors := tc_rerunErrors tc;
     tc_systemOut := tc_systemOut tc; tc_systemErr := tc_systemErr tc |}.

(** The test case of the specification's scenarios A and E. *)
Definition passing : JUnitTestCase :=
  plain (Some (lit "Suite1")) (Some (lit "test1")) (Some (lit "0.5")).

Definition withTime (time : jsstring) : JUnitTestCase :=
  plain (Some (lit "Suite1")) (Some (lit "test1")) (Some time).

(** Scenario B: two flaky failures, no rerun list. *)
Definition flakyTwice : JUnitTestCase :=
  withRetries passing (Some [noAttempt; noAttempt]) None None None.

(** Scenario C: one rerun failure and one rerun error, no flaky list. *)
Definition rerunOnly : JUnitTestCase :=
  withRetries passing None None (Some [noAttempt]) (Some [noAttempt]).

(** An empty suite name, and an empty test name with it. *)
Definition noSuite : JUnitTestCase :=
  plain (Some []) (Some (lit "test1")) (Some (lit "0.5")).

Definition noNames : JUnitTestCase :=
  plain (Some []) (Some []) (Some (lit "0.5")).

(** Both messages present, the failure message empty. *)
Definition emptyFailureMessage : JUnitTestCase :=
  withMessages passing (Some []) (Some (lit "boom")).

(** An output of one control character, DEL (U+007F). *)
Definition controlNoise : jsstring := [0x7F].

(** The one-character string U+FA6C. *)
Definition compatIdeograph : jsstring := [0xFA6C].

(** BOM, "a", NUL, a lone surrogate, "b". *)
Definition dirtyText : jsstring := [0xFEFF; 0x61; 0x00; 0xD800; 0x62].

End Sample.

(** ** Readings of the converter used by the further properties *)

Module Views.

Import JS Num Convert.

(** [/^\s*$/.test(s)] *)
Definition isBlank (s : jsstring) : bool := forallb isWhiteSpace s.

(** A code unit one of the three replacement rules of [sanitizeString]
    acts on. *)
Definition isUnsafe (c : codeUnit) : bool :=
  isBOM c || isControl c || isSurrogate c.

Definition isClean (s : jsstring) : bool :=
  forallb (fun c => negb (isUnsafe c)) s.

(** The retry records of a test case in the order the reconciler reads its
    four lists. *)
Definition allRetryRecords (testCase : JUnitTestCase)
  : list JUnitRetryAttempt :=
  elements (tc_flakyFailures testCase) ++ elements (tc_flakyErrors testCase)
  ++ elements (tc_rerunFailures testCase)
  ++ elements (tc_rerunErrors testCase).

(** A retry attempt without its number. *)
Definition attemptContent (a : RetryAttempt)
  : Status * option jsstring * option jsstring
    * option (list jsstring) * option (list jsstring) :=
  (at_status a, at_message a, at_trace a, at_stdout a, at_stderr a).

(** What [convertRetryAttempts] makes of one record, without the number. *)
Definition recordContent (normalize : jsstring -> jsstring)
    (r : JUnitRetryAttempt)
  : Status * option jsstring * option jsstring
    * option (list jsstring) * option (list jsstring) :=
  (failed,
   sanitizeString normalize (ra_message r),
   sanitizeString normalize (ra_trace r),
   convertOutputToArray normalize (ra_systemOut r),
   convertOutputToArray normalize (ra_systemErr r)).

Definition countCases (p : JUnitTestCase -> bool) (l : list JUnitTestCase)
  : nat :=
  List.length (filter p l).

(** The test cases the reconciler reports as passed, failed and skipped,
    told from the input alone. *)
Definition isPassedCase (testCase : JUnitTestCase) : bool :=
  hasFlaky testCase
  || negb (hasRerun testCase || tc_hasFailure testCase
           || tc_hasError testCase || isSkipped testCase).

Definition isFailedCase (testCase : JUnitTestCase) : bool :=
  negb (hasFlaky testCase)
  && (hasRerun testCase || tc_hasFailure testCase || tc_hasError testCase).

Definition isSkippedCase (testCase : JUnitTestCase) : bool :=
  negb (hasFlaky testCase || hasRerun testCase || tc_hasFailure testCase
        || tc_hasError testCase)
  && isSkipped testCase.

(** The flaky count of a summary, 0 when the key is not there. *)
Definition flakyCount (s : Summary) : nat :=
  match s_flaky s with
  | Some k => k
  | None => 0%nat
  end.

(** The number of occurrences of a code unit. *)
Definition occurrences (c : codeUnit) (s : jsstring) : nat :=
  List.length (filter (fun x => x =? c) s).

(** The text of a run of decimal digit values. *)
Definition decimalText (ds : list Z) : jsstring := map (fun d => d + 0x30) ds.

Definition isDigitValue (d : Z) : bool := (0 <=? d) && (d <=? 9).

End Views.

(** ** The environment mapping of [convertJUnitToCTRFReport]

    [Object.fromEntries(envProps.map(prop => prop.split('=')))], the part of
    the entry point that needs neither the reader nor the file system. *)

Module Env.

Import JS.

Fixpoint jsstring_eqb (a b : jsstring) : bool :=
  match a, b with
  | [], [] => true
  | x :: a', y :: b' => (x =? y) && jsstring_eqb a' b'
  | _, _ => false
  end.

(** An object with string keys, as the list of its own properties in the
    order they were first set.  (JavaScript lists integer-like keys first;
    nothing here reads the order.) *)
Definition jsobject (V : Type) := list (jsstring * V).

Fixpoint setProperty {V : Type} (k : jsstring) (v : V) (o : jsobject V)
  : jsobject V :=
  match o with
  | [] => [(k, v)]
  | (k', v') :: r =>
      if jsstring_eqb k' k then (k', v) :: r
      else (k', v') :: setProperty k v r
  end.

(** [o[k]], [None] when [k] is no own property of [o]. *)
Fixpoint getProperty {V : Type} (k : jsstring) (o : jsobject V) : option V :=
  match o with
  | [] => None
  | (k', v') :: r => if jsstring_eqb k' k then Some v' else getProperty k r
  end.

(** [Object.fromEntries] on arrays of strings: element 0 is the key,
    element 1 the value, `undefined` when the array has one element. *)
Definition fromEntries (entries : list (list jsstring))
  : jsobject (option jsstring) :=
  fold_left
    (fun o entry => setProperty (toString (nth_error entry 0))
                                (nth_error entry 1) o)
    entries [].

(** An array is truthy, so only a missing [envProps] gives [{}]. *)
Definition envPropsObj (envProps : option (list jsstring))
  : jsobject (option jsstring) :=
  match envProps with
  | Some props => fromEntries (map (split 0x3D) props)
  | None => []
  end.

(** The part of a property text before its first [=]. *)
Fixpoint propKey (prop : jsstring) : jsstring :=
  match prop with
  | [] => []
  | c :: r => if c =? 0x3D then [] else c :: propKey r
  end.

End Env.

(** ** More inputs to run the converter on *)

Module Inputs.

Import JS Num Convert Sample.

Definition withLineno (tc : JUnitTestCase) (lineno : option jsstring)
  : JUnitTestCase :=
  {| tc_suite := tc_suite tc; tc_classname := tc_classname tc;
     tc_name := tc_name tc; tc_time := tc_time tc;
     tc_hasFailure := tc_hasFailure tc; tc_failureTrace := tc_failureTrace tc;
     tc_failureMessage := tc_failureMessage tc;
     tc_failureType := tc_failureType tc;
     tc_hasError := tc_hasError tc; tc_errorTrace := tc_errorTrace tc;
     tc_errorMessage := tc_errorMessage tc; tc_errorType := tc_errorType tc;
     tc_file := tc_file tc; tc_lineno := lineno;
     tc_skipped := tc_skipped tc;
     tc_flakyFailures := tc_flakyFailures tc;
     tc_flakyErrors := tc_flakyErrors tc;
     tc_rerunFailures := tc_rerunFailures tc;
     tc_rerunErrors := tc_rerunErrors tc;
     tc_systemOut := tc_systemOut tc; tc_systemErr := tc_systemErr tc |}.

(** What the sanitizer makes of [dirtyText]: "a", a space for NUL, the
    replacement text for the surrogate, "b". *)
Definition dirtyTextSanitized : jsstring :=
  [0x61; 0x20] ++ replacementChar ++ [0x62].

(** "hi", a space and the surrogate pair of U+1F389. *)
Definition emojiText : jsstring := lit "hi " ++ [0xD83C; 0xDF89].

(** A space, NUL, DEL and a tab. *)
Definition noiseText : jsstring := [0x20; 0x00; 0x7F; 0x09].

(** Three lines: "a", an empty one, and " b " with spaces around it. *)
Definition threeLines : jsstring := lit "a" ++ [0x0A; 0x0A] ++ lit " b ".

(** A failure message next to an error message. *)
Definition bothMessages : JUnitTestCase :=
  withMessages passing (Some (lit "expected 1")) (Some (lit "boom")).

(** A failure message of one space next to an error message. *)
Definition blankFailureMessage : JUnitTestCase :=
  withMessages passing (Some (lit " ")) (Some (lit "boom")).

Definition withTraces (tc : JUnitTestCase)
    (failureTrace errorTrace : option jsstring) : JUnitTestCase :=
  {| tc_suite := tc_suite tc; tc_classname := tc_classname tc;
     tc_name := tc_name tc; tc_time := tc_time tc;
     tc_hasFailure := tc_hasFailure tc; tc_failureTrace := failureTrace;
     tc_failureMessage := tc_failureMessage tc;
     tc_failureType := tc_failureType tc;
     tc_hasError := tc_hasError tc; tc_errorTrace := errorTrace;
     tc_errorMessage := tc_errorMessage tc; tc_errorType := tc_errorType tc;
     tc_file := tc_file tc; tc_lineno := tc_lineno tc;
     tc_skipped := tc_skipped tc;
     tc_flakyFailures := tc_flakyFailures tc;
     tc_flakyErrors := tc_flakyErrors tc;
     tc_rerunFailures := tc_rerunFailures tc;
     tc_rerunErrors := tc_rerunErrors tc;
     tc_systemOut := tc_systemOut tc; tc_systemErr := tc_systemErr tc |}.

(** Message and trace of the failure both empty, those of the error both
    there. *)
Definition emptyFailureTexts : JUnitTestCase :=
  withTraces emptyFailureMessage (Some []) (Some (lit "at test.js:25")).

(** The line number text "042". *)
Definition lineFortyTwo : JUnitTestCase :=
  withLineno passing (Some (Views.decimalText [0; 4; 2])).

End Inputs.

(** * Properties *)

Import JS Num Convert Views.

(** ** The retry reconciler *)

Section Reconciler.

Variable normalize : jsstring -> jsstring.

(** The three branches of the rerun case all assign [failed]. *)
Lemma finalStatus_by_priority (testCase : JUnitTestCase) :
  finalStatus (processTestWithRetries normalize testCase)
  = statusByPriority testCase.
Proof.
  unfold processTestWithRetries, statusByPriority; cbn [finalStatus].
  repeat match goal with
         | |- context [if ?b then _ else _] => destruct b
         end; reflexivity.
Qed.

(** C1: the final status follows the priority of the specification: flaky
    lists first ([passed], even when rerun lists are there too), then rerun
    lists ([failed], whatever the flags of the base record say), then the
    failure and error flags ([failed]), then the skipped flag ([skipped]),
    and [passed] otherwise. *)
Theorem final_status_priority (testCase : JUnitTestCase) :
  finalStatus (processTestWithRetries normalize testCase)
  = (if nonEmpty (tc_flakyFailures testCase)
        || nonEmpty (tc_flakyErrors testCase)
     then passed
     else if nonEmpty (tc_rerunFailures testCase)
             || nonEmpty (tc_rerunErrors testCase)
     then failed
     else if tc_hasFailure testCase || tc_hasError testCase then failed
     else if isSkipped testCase then skipped
     else passed).
Proof.
  unfold processTestWithRetries; cbn [finalStatus].
  fold (hasFlaky testCase). fold (hasRerun testCase).
  destruct (hasFlaky testCase); [reflexivity|].
  destruct (hasRerun testCase); [|reflexivity].
  destruct (tc_hasError testCase); [reflexivity|].
  destruct (tc_hasFailure testCase); reflexivity.
Qed.

Lemma attempts_of_mapi (f : JUnitRetryAttempt -> nat -> RetryAttempt)
    (start : nat) :
  (forall a i, at_attempt (f a i) = (start + i)%nat) ->
  forall l i, map at_attempt (mapi f i l) = seq (start + i) (List.length l).
Proof.
  intros Hf l; induction l as [|a l IH]; intro i;
    cbn [mapi map List.length seq].
  - reflexivity.
  - rewrite Hf, IH. f_equal. f_equal. lia.
Qed.

Lemma convertRetryAttempts_numbers (l : list JUnitRetryAttempt) (start : nat) :
  map at_attempt (convertRetryAttempts normalize l start)
  = seq start (List.length l).
Proof.
  unfold convertRetryAttempts.
  rewrite (attempts_of_mapi _ start) by reflexivity.
  f_equal. lia.
Qed.

(** A block keeps the history a run of consecutive numbers that the counter
    continues. *)
Lemma pushAttempts_consecutive (l : option (list JUnitRetryAttempt))
    (st : list RetryAttempt * nat) (first n : nat) :
  map at_attempt (fst st) = seq first n ->
  snd st = (first + n)%nat ->
  map at_attempt (fst (pushAttempts normalize l st))
  = seq first (n + List.length (elements l))
  /\ snd (pushAttempts normalize l st)
     = (first + (n + List.length (elements l)))%nat.
Proof.
  destruct st as [history counter]; cbn [fst snd]; intros Hh Hc.
  unfold pushAttempts.
  destruct l as [[|a l]|]; cbn [nonEmpty elements fst snd List.length].
  - rewrite Nat.add_0_r. auto.
  - rewrite map_app, convertRetryAttempts_numbers, Hh, Hc, seq_app.
    split; [reflexivity | cbn [List.length]; lia].
  - rewrite Nat.add_0_r. auto.
Qed.

Lemma nonEmpty_false_length {A : Type} (l : option (list A)) :
  nonEmpty l = false -> List.length (elements l) = 0%nat.
Proof. destruct l as [[|]|]; cbn; congruence. Qed.

Lemma content_of_mapi (start : nat) (l : list JUnitRetryAttempt) (i : nat) :
  map attemptContent
    (mapi (fun attempt index =>
             {| at_attempt := start + index;
                at_status := failed;
                at_message := sanitizeString normalize (ra_message attempt);
                at_trace := sanitizeString normalize (ra_trace attempt);
                at_stdout :=
                  convertOutputToArray normalize (ra_systemOut attempt);
                at_stderr :=
                  convertOutputToArray normalize (ra_systemErr attempt) |})
          i l)
  = map (recordContent normalize) l.
Proof.
  revert i; induction l as [|a l IH]; intro i; [reflexivity|].
  cbn [mapi map]. rewrite IH. reflexivity.
Qed.

Lemma pushAttempts_content (l : option (list JUnitRetryAttempt))
    (st : list RetryAttempt * nat) :
  map attemptContent (fst (pushAttempts normalize l st))
  = map attemptContent (fst st) ++ map (recordContent normalize) (elements l).
Proof.
  destruct st as [history counter]. unfold pushAttempts.
  destruct l as [[|a l]|]; cbn [nonEmpty elements fst map];
    try (rewrite app_nil_r; reflexivity).
  rewrite map_app. f_equal. apply (content_of_mapi counter (a :: l) 0).
Qed.

(** The history holds the records of the four lists, list after list. *)
Lemma history_content (testCase : JUnitTestCase) :
  map attemptContent
    (ti_retryAttempts (processTestWithRetries normalize testCase))
  = map (recordContent normalize) (allRetryRecords testCase).
Proof.
  unfold processTestWithRetries, allRetryRecords. cbn [ti_retryAttempts].
  rewrite !pushAttempts_content.
  assert (Hreset : forall st : list RetryAttempt * nat,
             fst (if negb (hasFlaky testCase) then (fst st, 2%nat) else st)
             = fst st)
    by (intros st; destruct (negb (hasFlaky testCase)); reflexivity).
  rewrite Hreset, !pushAttempts_content. cbn [fst map].
  rewrite !map_app, !app_assoc. reflexivity.
Qed.

Lemma map_pair_combine {A B C : Type} (f : A -> B) (g : A -> C)
    (l : list A) :
  map (fun a => (f a, g a)) l = combine (map f l) (map g l).
Proof.
  induction l as [|a l IH]; [reflexivity|].
  cbn [map combine]. rewrite IH. reflexivity.
Qed.

(** C2, as the code has it: the history holds one attempt for each retry
    record, in the order of the lists put one after the other
    (flakyFailures, flakyErrors, rerunFailures, rerunErrors); the attempt
    numbers along it are consecutive, each one greater than the one before;
    the first is 1 when a flaky list is not empty and 2 when only rerun
    lists are. *)
Theorem attempt_numbers_consecutive (testCase : JUnitTestCase) :
  attemptNumbers (processTestWithRetries normalize testCase)
  = seq (firstAttempt testCase) (retryRecords testCase)
  /\ map (fun a => (at_attempt a, attemptContent a))
       (ti_retryAttempts (processTestWithRetries normalize testCase))
     = combine (seq (firstAttempt testCase) (retryRecords testCase))
         (map (recordContent normalize)
            (elements (tc_flakyFailures testCase)
             ++ elements (tc_flakyErrors testCase)
             ++ elements (tc_rerunFailures testCase)
             ++ elements (tc_rerunErrors testCase))).
Proof.
  assert (Hnumbers :
            attemptNumbers (processTestWithRetries normalize testCase)
            = seq (firstAttempt testCase) (retryRecords testCase)).
  { unfold attemptNumbers, processTestWithRetries, firstAttempt, retryRecords.
    cbn [ti_retryAttempts].
    set (st0 := ([], 1%nat) : list RetryAttempt * nat).
    destruct (pushAttempts_consecutive (tc_flakyFailures testCase) st0 1 0
                eq_refl eq_refl) as [H1 C1].
    destruct (pushAttempts_consecutive (tc_flakyErrors testCase) _ 1 _ H1 C1)
      as [H2 C2].
    set (st2 := pushAttempts normalize (tc_flakyErrors testCase) _) in *.
    destruct (hasFlaky testCase) eqn:Hflaky; cbn [negb].
    - destruct (pushAttempts_consecutive (tc_rerunFailures testCase) _ 1 _
                  H2 C2) as [H3 C3].
      destruct (pushAttempts_consecutive (tc_rerunErrors testCase) _ 1 _
                  H3 C3) as [H4 _].
      rewrite H4. f_equal; lia.
    - apply orb_false_elim in Hflaky as [Hff Hfe].
      apply nonEmpty_false_length in Hff, Hfe.
      rewrite Hff, Hfe in *. cbn [Nat.add] in *.
      assert (H2' : map at_attempt (fst (fst st2, 2%nat)) = seq 2 0)
        by (cbn [fst]; destruct (fst st2); [reflexivity | discriminate H2]).
      destruct (pushAttempts_consecutive (tc_rerunFailures testCase) _ 2 0
                  H2' eq_refl) as [H3 C3].
      destruct (pushAttempts_consecutive (tc_rerunErrors testCase) _ 2 _
                  H3 C3) as [H4 _].
      rewrite H4. reflexivity. }
  split; [exact Hnumbers|].
  rewrite map_pair_combine. fold (attemptNumbers
    (processTestWithRetries normalize testCase)).
  rewrite Hnumbers, history_content. reflexivity.
Qed.

End Reconciler.

(** ** The report assembler *)

Section Assembler.

Variable normalize : jsstring -> jsstring.

Lemma status_of_test (testCase : JUnitTestCase) (useSuiteName : bool) :
  status (convertToCTRFTest normalize testCase useSuiteName)
  = statusByPriority testCase.
Proof. cbn [convertToCTRFTest status]. apply finalStatus_by_priority. Qed.

Lemma flaky_of_test (testCase : JUnitTestCase) (useSuiteName : bool) :
  isFlakyTest (convertToCTRFTest normalize testCase useSuiteName)
  = hasFlaky testCase.
Proof.
  unfold isFlakyTest.
  cbn [convertToCTRFTest flaky processTestWithRetries isFlaky].
  destruct (hasFlaky testCase); reflexivity.
Qed.

Lemma statusByPriority_producible (testCase : JUnitTestCase) :
  producible (statusByPriority testCase) = true.
Proof.
  unfold statusByPriority.
  repeat match goal with |- context [if ?b then _ else _] => destruct b end;
    reflexivity.
Qed.

Lemma countStatus_cons (st : Status) (t : Test) (l : list Test) :
  countStatus st (t :: l)
  = ((if Status_eqb (status t) st then 1 else 0) + countStatus st l)%nat.
Proof.
  unfold countStatus; cbn [filter].
  destruct (Status_eqb (status t) st); reflexivity.
Qed.

(** The five buckets partition any list of tests. *)
Lemma buckets_partition (l : list Test) :
  (countStatus passed l + countStatus failed l + countStatus skipped l
   + countStatus pending l + countStatus other l = List.length l)%nat.
Proof.
  induction l as [|t l IH]; [reflexivity|].
  rewrite !countStatus_cons; cbn [List.length].
  destruct (status t); cbn [Status_eqb]; lia.
Qed.

Lemma countStatus_unproducible (st : Status) (l : list Test) :
  producible st = false ->
  Forall (fun t => producible (status t) = true) l ->
  countStatus st l = 0%nat.
Proof.
  intros Hst Hl; induction Hl as [|t l Ht _ IH]; [reflexivity|].
  rewrite countStatus_cons, IH.
  destruct (status t), st; cbn in *; congruence.
Qed.

Lemma converted_producible (l : list JUnitTestCase) (b : bool) :
  Forall (fun t => producible (status t) = true)
         (map (fun testCase => convertToCTRFTest normalize testCase b) l).
Proof.
  apply Forall_forall; intros t Ht.
  apply in_map_iff in Ht as [testCase [<- _]].
  rewrite status_of_test. apply statusByPriority_producible.
Qed.

Lemma existsb_filter_length {A : Type} (f : A -> bool) (l : list A) :
  existsb f l = (0 <? List.length (filter f l))%nat.
Proof.
  induction l as [|a l IH]; [reflexivity|].
  cbn [existsb filter]. destruct (f a); [reflexivity | exact IH].
Qed.

(** The flaky tests of a converted list are among its passed ones. *)
Lemma flaky_among_passed (l : list JUnitTestCase) (b : bool) :
  (List.length
     (filter isFlakyTest
        (map (fun testCase => convertToCTRFTest normalize testCase b) l))
   <= countStatus passed
        (map (fun testCase => convertToCTRFTest normalize testCase b) l))%nat.
Proof.
  induction l as [|testCase l IH]; [apply Nat.le_refl|].
  cbn [map]. rewrite countStatus_cons. cbn [filter].
  rewrite flaky_of_test, status_of_test. unfold statusByPriority.
  destruct (hasFlaky testCase); cbn [Status_eqb List.length]; lia.
Qed.

(** C8: in the summary of every report, of the empty list too, the five
    status counts add up to [tests], [pending] and [other] are 0, and the
    [flaky] key is there exactly when some produced test has
    [flaky === true], holding the number of such tests. *)
Theorem summary_counts (now : jsstring) (testCases : list JUnitTestCase)
    (toolName : option jsstring)
    (envProps : option (list (jsstring * jsstring)))
    (useSuiteName : option bool) :
  let report :=
    createCTRFReport normalize now testCases toolName envProps useSuiteName in
  let s := summary (results report) in
  (s_passed s + s_failed s + s_skipped s + s_pending s + s_other s
   = s_tests s)%nat
  /\ s_pending s = 0%nat
  /\ s_other s = 0%nat
  /\ s_flaky s
     = if existsb isFlakyTest (tests (results report))
       then Some (List.length (filter isFlakyTest (tests (results report))))
       else None.
Proof.
  cbn zeta. unfold createCTRFReport.
  cbn [results summary tests s_passed s_failed s_skipped s_pending s_other
       s_tests s_flaky].
  repeat split.
  - apply buckets_partition.
  - apply countStatus_unproducible; [reflexivity | apply converted_producible].
  - apply countStatus_unproducible; [reflexivity | apply converted_producible].
  - rewrite existsb_filter_length. reflexivity.
Qed.

Lemma sanitizeString_not_empty (str : option jsstring) :
  sanitizeString normalize str <> Some [].
Proof.
  destruct str as [s|]; cbn [sanitizeString]; [|discriminate].
  destruct (forallb isWhiteSpace _) eqn:E; [discriminate|].
  intros [= H]. rewrite H in E. discriminate E.
Qed.

(** A sanitized text is `undefined` or truthy, so `|| undefined` after it
    changes nothing. *)
Lemma sanitized_or_undefined (str : option jsstring) :
  or_else (sanitizeString normalize str) None = sanitizeString normalize str.
Proof.
  pose proof (sanitizeString_not_empty str) as H.
  unfold or_else.
  destruct (sanitizeString normalize str) as [[|c s]|]; cbn;
    [contradiction H | |]; reflexivity.
Qed.

(** C9: the message and the trace fall back from the failure to the error
    by truthiness, not by presence: with an empty [failureMessage] and an
    [errorMessage] that is not empty, both present, the message is the
    sanitized [errorMessage]; and with an empty [failureTrace] and an
    [errorTrace] that is not empty, the trace is the sanitized
    [errorTrace]. *)
Theorem message_and_trace_fall_back_on_empty (testCase : JUnitTestCase)
    (useSuiteName : bool) (errorMessage errorTrace : jsstring) :
  (tc_failureMessage testCase = Some [] ->
   tc_errorMessage testCase = Some errorMessage ->
   errorMessage <> [] ->
   message (convertToCTRFTest normalize testCase useSuiteName)
   = sanitizeString normalize (Some errorMessage))
  /\ (tc_failureTrace testCase = Some [] ->
      tc_errorTrace testCase = Some errorTrace ->
      errorTrace <> [] ->
      trace (convertToCTRFTest normalize testCase useSuiteName)
      = sanitizeString normalize (Some errorTrace)).
Proof.
  split.
  - intros Hf He _. cbn [convertToCTRFTest message].
    rewrite Hf, He. cbn [or_else truthy].
    apply sanitized_or_undefined.
  - intros Hf He _. cbn [convertToCTRFTest trace].
    rewrite Hf, He. cbn [or_else truthy].
    apply sanitized_or_undefined.
Qed.

(** C10: a produced test that carries [flaky == true] has status
    [passed]; so the flaky count of a summary, when the key is there, is at
    most its passed count. *)
Theorem flaky_tests_passed (testCase : JUnitTestCase) (useSuite : bool)
    (now : jsstring) (testCases : list JUnitTestCase)
    (toolName : option jsstring)
    (envProps : option (list (jsstring * jsstring)))
    (useSuiteName : option bool) (k : nat) :
  (flaky (convertToCTRFTest normalize testCase useSuite) = Some true ->
   status (convertToCTRFTest normalize testCase useSuite) = passed)
  /\ (s_flaky (summary (results (createCTRFReport normalize now testCases
                                   toolName envProps useSuiteName)))
      = Some k ->
      (k <= s_passed (summary (results (createCTRFReport normalize now
                                          testCases toolName envProps
                                          useSuiteName))))%nat).
Proof.
  split.
  - intros H. rewrite status_of_test. unfold statusByPriority.
    pose proof (flaky_of_test testCase useSuite) as F.
    unfold isFlakyTest in F. rewrite H in F. rewrite <- F. reflexivity.
  - unfold createCTRFReport; cbn [results summary s_flaky s_passed].
    destruct (0 <? _)%nat; [|discriminate].
    intros [= <-]. apply flaky_among_passed.
Qed.

End Assembler.

(** ** The sanitizer *)

Lemma filter_all {A : Type} (f : A -> bool) (l : list A) :
  (forall x, In x l -> f x = true) -> filter f l = l.
Proof.
  induction l as [|a l IH]; intros H; [reflexivity|].
  cbn [filter]. rewrite (H a (or_introl eq_refl)), IH; [reflexivity|].
  intros x Hx; apply H; right; exact Hx.
Qed.

Lemma map_fixed {A : Type} (f : A -> A) (l : list A) :
  (forall x, In x l -> f x = x) -> map f l = l.
Proof.
  induction l as [|a l IH]; intros H; [reflexivity|].
  cbn [map]. rewrite (H a (or_introl eq_refl)), IH; [reflexivity|].
  intros x Hx; apply H; right; exact Hx.
Qed.

Lemma flat_map_units {A : Type} (f : A -> list A) (l : list A) :
  (forall x, In x l -> f x = [x]) -> flat_map f l = l.
Proof.
  induction l as [|a l IH]; intros H; [reflexivity|].
  cbn [flat_map]. rewrite (H a (or_introl eq_refl)), IH; [reflexivity|].
  intros x Hx; apply H; right; exact Hx.
Qed.

(** After the three replacement rules no BOM and no control character is
    left. *)
Lemma replaced_clean (s : jsstring) (c : codeUnit) :
  In c (replaceSurrogates (replaceControl (removeBOM s))) ->
  isBOMOrControl c = false.
Proof.
  unfold replaceSurrogates, replaceControl, removeBOM.
  rewrite in_flat_map. intros [x [Hx Hc]].
  apply in_map_iff in Hx as [y [Hy Hin]].
  apply filter_In in Hin as [_ Hbom].
  destruct (isSurrogate x) eqn:Hs.
  - cbn in Hc. destruct Hc as [<-|[<-|[<-|[]]]]; reflexivity.
  - destruct Hc as [<-|[]].
    destruct (isControl y) eqn:Hctl; subst x; [reflexivity|].
    unfold isBOMOrControl. rewrite Hctl.
    destruct (isBOM y); [discriminate Hbom | reflexivity].
Qed.

Section SanitizerLaws.

Variable normalize : jsstring -> jsstring.

(** Two facts of NFC: normalizing twice is normalizing once, and a BOM or a
    control character in the result was in the argument. *)
Hypothesis normalize_idempotent :
  forall s, normalize (normalize s) = normalize s.
Hypothesis normalize_adds_no_bom_or_control :
  forall s c, In c (normalize s) -> isBOMOrControl c = true -> In c s.

(** X23: [sanitizeString] maps `undefined` to `undefined`, and sanitizing
    its result again gives that result whenever no surrogate code unit is
    left in it (with a normalizer that has the two facts above). *)
Theorem sanitizeString_idempotent_without_surrogates (str : option jsstring) :
  surrogateFree (sanitizeString normalize str) = true ->
  sanitizeString normalize (sanitizeString normalize str)
  = sanitizeString normalize str
  /\ sanitizeString normalize None = None.
Proof.
  intros Hfree; split; [|reflexivity].
  destruct str as [s|]; [|reflexivity].
  cbn [sanitizeString] in *.
  set (c := replaceSurrogates (replaceControl (removeBOM s))) in *.
  destruct (forallb isWhiteSpace (normalize c)) eqn:Hws; [reflexivity|].
  cbn [surrogateFree] in Hfree. cbn [sanitizeString].
  assert (Hclean : forall x, In x (normalize c) -> isBOMOrControl x = false).
  { intros x Hx. destruct (isBOMOrControl x) eqn:E; [|reflexivity].
    rewrite (replaced_clean s x) in E; [discriminate E|].
    apply normalize_adds_no_bom_or_control; assumption. }
  assert (Hbom : removeBOM (normalize c) = normalize c).
  { apply filter_all. intros x Hx. apply Hclean in Hx.
    apply orb_false_elim in Hx as [-> _]. reflexivity. }
  assert (Hctl : replaceControl (normalize c) = normalize c).
  { apply map_fixed. intros x Hx. apply Hclean in Hx.
    apply orb_false_elim in Hx as [_ ->]. reflexivity. }
  assert (Hsur : replaceSurrogates (normalize c) = normalize c).
  { apply flat_map_units. intros x Hx.
    apply negb_true_iff in Hfree.
    destruct (isSurrogate x) eqn:E; [|reflexivity].
    assert (existsb isSurrogate (normalize c) = true)
      by (apply existsb_exists; exists x; auto).
    congruence. }
  rewrite Hbom, Hctl, Hsur, normalize_idempotent, Hws. reflexivity.
Qed.

End SanitizerLaws.

(** The sample normalizer has the two facts. *)
Lemma nfc_idempotent (s : jsstring) : Sample.nfc (Sample.nfc s) = Sample.nfc s.
Proof.
  unfold Sample.nfc. induction s as [|c s IH]; [reflexivity|].
  cbn [flat_map]. rewrite flat_map_app, IH. f_equal.
  unfold Sample.nfcUnit. destruct (c =? 0xFA6C) eqn:E; [reflexivity|].
  cbn [flat_map]. rewrite E. reflexivity.
Qed.

Lemma nfc_adds_no_bom_or_control (s : jsstring) (c : codeUnit) :
  In c (Sample.nfc s) -> isBOMOrControl c = true -> In c s.
Proof.
  unfold Sample.nfc. rewrite in_flat_map. intros [x [Hx Hc]] Hbad.
  unfold Sample.nfcUnit in Hc. destruct (x =? 0xFA6C).
  - destruct Hc as [<-|[<-|[]]]; discriminate Hbad.
  - destruct Hc as [<-|[]]. exact Hx.
Qed.

(** ** Numbers *)

Lemma iter_pos_nat {A : Type} (f : A -> A) (p : positive) (x : A) :
  iter_pos f p x = Nat.iter (Pos.to_nat p) f x.
Proof.
  revert x; induction p as [p IH|p IH|]; intro x; cbn [iter_pos].
  - rewrite !IH, Pos2Nat.inj_xI, <- Nat.iter_succ_r, <- Nat.iter_add.
    f_equal. lia.
  - rewrite !IH, Pos2Nat.inj_xO, <- Nat.iter_add. f_equal. lia.
  - reflexivity.
Qed.

Lemma shr_1_nonneg (m : Z) (r s : bool) :
  0 <= m ->
  shr_1 {| shr_m := m; shr_r := r; shr_s := s |}
  = {| shr_m := m / 2; shr_r := Z.odd m; shr_s := r || s |}.
Proof.
  intros Hm. rewrite <- Z.div2_div.
  destruct m as [|[p|p|]|p]; try reflexivity; lia.
Qed.

(** [j] steps to the right divide the mantissa by [2 ^ j]; the bits that
    fall off are recorded, and nothing is recorded when they are all 0. *)
Lemma shr_1_iter (j : nat) (m : Z) :
  0 <= m ->
  let mrs :=
    Nat.iter j shr_1 {| shr_m := m; shr_r := false; shr_s := false |} in
  shr_m mrs = m / 2 ^ Z.of_nat j
  /\ (m mod 2 ^ Z.of_nat j = 0 -> shr_r mrs = false /\ shr_s mrs = false).
Proof.
  intros Hm; induction j as [|j [IHm IHb]].
  - cbn. rewrite Z.div_1_r. auto.
  - cbn zeta in *. rewrite Nat.iter_succ.
    destruct (Nat.iter j shr_1 _) as [mj rj sj]; cbn [shr_m shr_r shr_s] in *.
    assert (Hpow : 0 < 2 ^ Z.of_nat j) by (apply Z.pow_pos_nonneg; lia).
    assert (Hmj : 0 <= mj) by (subst mj; apply Z.div_pos; lia).
    rewrite shr_1_nonneg by exact Hmj. cbn [shr_m shr_r shr_s].
    rewrite Nat2Z.inj_succ, Z.pow_succ_r by lia.
    split.
    + subst mj. rewrite Z.div_div by lia. f_equal. lia.
    + intros Hmod.
      apply Z.mod_divide in Hmod; [|lia]. destruct Hmod as [q Hq].
      assert (Hj : m mod 2 ^ Z.of_nat j = 0).
      { apply Z.mod_divide; [lia|]. exists (q * 2). lia. }
      destruct (IHb Hj) as [-> ->].
      split; [|reflexivity].
      subst mj. replace m with (2 * q * 2 ^ Z.of_nat j) by lia.
      rewrite Z.div_mul by lia. rewrite Z.odd_mul. reflexivity.
Qed.

(** Shifting an integral value to the right keeps it integral, and exact
    while the exponent stays negative. *)
Lemma shr_integral (m e k : Z) :
  0 <= m -> integral m e ->
  0 <= shr_m (fst (shr {| shr_m := m; shr_r := false; shr_s := false |} e k))
  /\ (0 <= snd (shr {| shr_m := m; shr_r := false; shr_s := false |} e k)
      \/ (integral
            (shr_m (fst (shr {| shr_m := m; shr_r := false; shr_s := false |}
                             e k)))
            (snd (shr {| shr_m := m; shr_r := false; shr_s := false |} e k))
          /\ loc_of_shr_record
               (fst (shr {| shr_m := m; shr_r := false; shr_s := false |} e k))
             = loc_Exact)).
Proof.
  intros Hm Hint. unfold shr.
  destruct k as [|p|p]; cbn [fst snd shr_m loc_of_shr_record]; auto.
  rewrite iter_pos_nat.
  destruct (shr_1_iter (Pos.to_nat p) m Hm) as [Hq Hbits].
  rewrite positive_nat_Z in Hq, Hbits.
  assert (Hpow : 0 < 2 ^ Z.pos p) by (apply Z.pow_pos_nonneg; lia).
  split; [rewrite Hq; apply Z.div_pos; lia|].
  destruct (Z_le_gt_dec 0 (e + Z.pos p)) as [Hle|Hgt]; [left; exact Hle|].
  right. destruct Hint as [He|Hmod]; [lia|].
  apply Z.mod_divide in Hmod; [|apply Z.pow_nonzero; lia].
  destruct Hmod as [q Hq'].
  assert (Hsplit : 2 ^ (- e) = 2 ^ (- (e + Z.pos p)) * 2 ^ Z.pos p)
    by (rewrite <- Z.pow_add_r by lia; f_equal; lia).
  assert (Hm0 : m mod 2 ^ Z.pos p = 0).
  { apply Z.mod_divide; [lia|]. exists (q * 2 ^ (- (e + Z.pos p))).
    rewrite Hq', Hsplit. ring. }
  destruct (Hbits Hm0) as [Hr Hs].
  destruct (Nat.iter _ _ _) as [mj rj sj]; cbn [shr_m shr_r shr_s] in *.
  subst rj sj. split; [|reflexivity].
  right. rewrite Hq, Hq', Hsplit, Z.mul_assoc, Z.div_mul by lia.
  apply Z.mod_mul. apply Z.pow_nonzero; lia.
Qed.

Lemma round_nearest_even_nonneg (m : Z) (l : location) :
  0 <= m -> 0 <= round_nearest_even m l.
Proof.
  intros Hm. destruct l as [|[| |]]; cbn [round_nearest_even]; try lia.
  destruct (Z.even m); lia.
Qed.

(** What [binary_round_aux] can return: NaN, or a value of the given
    sign. *)
Lemma binary_round_aux_shape (s : bool) (mx ex : Z) (lx : location) :
  let r := binary_round_aux prec emax s mx ex lx in
  r = S754_nan \/ r = S754_infinity s \/ r = S754_zero s
  \/ exists m e, r = S754_finite s m e.
Proof.
  cbn zeta. unfold binary_round_aux.
  destruct (shr_fexp prec emax mx ex lx) as [mrs' e'].
  destruct (shr_fexp prec emax _ e' loc_Exact) as [mrs'' e''].
  destruct (shr_m mrs'') as [|m|m]; auto.
  destruct (e'' <=? emax - prec); eauto 6.
Qed.

Lemma binary_round_aux_sign (mx ex : Z) (lx : location) :
  signBit (binary_round_aux prec emax false mx ex lx) = false.
Proof.
  destruct (binary_round_aux_shape false mx ex lx)
    as [H|[H|[H|[m [e H]]]]]; rewrite H; reflexivity.
Qed.

(** Rounding an integral value gives an integral Number, unless it
    overflows. *)
Lemma binary_round_aux_integral (s : bool) (mx ex : Z) :
  0 <= mx -> integral mx ex ->
  isFinite (binary_round_aux prec emax s mx ex loc_Exact) = true ->
  exists k, toZ (binary_round_aux prec emax s mx ex loc_Exact) = Some k.
Proof.
  intros Hm Hint. unfold binary_round_aux, shr_fexp.
  cbn [shr_record_of_loc].
  set (k1 := fexp prec emax (Zdigits2 mx + ex) - ex).
  destruct (shr_integral mx ex k1 Hm Hint) as [Hm1 H1].
  destruct (shr _ ex k1) as [mrs' e']; cbn [fst snd] in Hm1, H1.
  set (m2 := round_nearest_even (shr_m mrs') (loc_of_shr_record mrs')).
  assert (Hm2 : 0 <= m2) by (apply round_nearest_even_nonneg; exact Hm1).
  assert (Hint2 : integral m2 e').
  { destruct H1 as [He|[Hi Hl]]; [left; exact He|].
    subst m2. rewrite Hl. exact Hi. }
  set (k2 := fexp prec emax (Zdigits2 m2 + e') - e').
  destruct (shr_integral m2 e' k2 Hm2 Hint2) as [Hm3 H3].
  destruct (shr _ e' k2) as [mrs'' e'']; cbn [fst snd] in Hm3, H3.
  assert (Hint3 : integral (shr_m mrs'') e'')
    by (destruct H3 as [|[]]; [left|]; auto).
  destruct (shr_m mrs'') as [|m|m]; cbn [isFinite toZ]; eauto; try discriminate.
  destruct (e'' <=? emax - prec); cbn [isFinite toZ]; [|discriminate].
  intros _. destruct (0 <=? e'') eqn:He; [eauto|].
  destruct Hint3 as [Hle|Hmod]; [apply Z.leb_gt in He; lia|].
  rewrite Hmod. cbn. eauto.
Qed.

Lemma iter_xO (m d : positive) :
  Z.pos (Pos.iter xO m d) = Z.pos m * 2 ^ Z.pos d.
Proof.
  induction d as [|d IH] using Pos.peano_ind.
  - cbn [Pos.iter]. rewrite Pos2Z.inj_xO. lia.
  - rewrite Pos.iter_succ, Pos2Z.inj_xO, IH, Pos2Z.inj_succ, Z.pow_succ_r
      by lia.
    ring.
Qed.

Lemma shl_align_integral (m : positive) (e' : Z) :
  integral (Z.pos (fst (shl_align m 0 e'))) (snd (shl_align m 0 e')).
Proof.
  unfold shl_align. rewrite Z.sub_0_r.
  destruct e' as [|p|d]; cbn [fst snd]; [left; lia | left; lia |].
  right. rewrite iter_xO. apply Z.mod_mul. apply Z.pow_nonzero; lia.
Qed.

Lemma binary_round_integral (s : bool) (m : positive) :
  isFinite (binary_round prec emax s m 0) = true ->
  exists k, toZ (binary_round prec emax s m 0) = Some k.
Proof.
  unfold binary_round.
  pose proof (shl_align_integral m
                (fexp prec emax (Z.pos (digits2_pos m) + 0))) as H.
  destruct (shl_align m 0 _) as [mz ez]; cbn [fst snd] in H.
  apply binary_round_aux_integral; [lia | exact H].
Qed.

(** The Number value of an integer is an integer, unless it is infinite. *)
Lemma ofZ_integral (n : Z) :
  isFinite (ofZ n) = true -> exists k, toZ (ofZ n) = Some k.
Proof.
  unfold ofZ, binary_normalize.
  destruct n as [|m|m]; [cbn; eauto | |]; apply binary_round_integral.
Qed.

Lemma ofZ_sign (n : Z) : 0 <= n -> signBit (ofZ n) = false.
Proof.
  intros Hn. unfold ofZ, binary_normalize.
  destruct n as [|m|m]; [reflexivity | | lia].
  unfold binary_round. destruct (shl_align m 0 _) as [mz ez].
  apply binary_round_aux_sign.
Qed.

(** [Math.round] gives an integer whenever it gives a finite Number. *)
Lemma Math_round_integral (x : Number) :
  isFinite (Math_round x) = true -> exists k, toZ (Math_round x) = Some k.
Proof.
  destruct x as [s|s| |s m e]; cbn [Math_round]; try discriminate.
  - cbn; eauto.
  - destruct (toZ (S754_finite s m e)) as [k|] eqn:E; [rewrite E; eauto|].
    destruct (_ =? 0); [cbn; eauto | apply ofZ_integral].
Qed.

Lemma Math_round_sign (x : Number) :
  signBit x = false -> signBit (Math_round x) = false.
Proof.
  destruct x as [s|s| |s m e]; cbn [Math_round signBit]; auto.
  intros ->. destruct (toZ _); [reflexivity|].
  destruct (_ =? 0); [reflexivity|].
  apply ofZ_sign. cbn [cond_Zopp].
  apply Z_div_nonneg_nonneg; [|apply Z.pow_nonneg; lia].
  assert (0 <= 2 ^ (- e)) by (apply Z.pow_nonneg; lia). lia.
Qed.

Lemma thousand : ofZ 1000 = S754_finite false 8796093022208000 (-43).
Proof. vm_compute. reflexivity. Qed.

Lemma mul_thousand_sign (x : Number) :
  signBit x = false -> signBit (mul x (ofZ 1000)) = false.
Proof.
  rewrite thousand. unfold mul.
  destruct x as [s|s| |s m e]; cbn [SFmul signBit];
    try (intros ->; reflexivity).
  - reflexivity.
  - intros ->. apply binary_round_aux_sign.
Qed.

(** A non-negative integral Number is a non-negative integer. *)
Lemma toZ_nonneg (x : Number) (k : Z) :
  signBit x = false -> toZ x = Some k -> 0 <= k.
Proof.
  destruct x as [s|s| |s m e]; unfold signBit, toZ; try discriminate.
  - intros _ [= <-]. lia.
  - intros ->. unfold cond_Zopp.
    assert (Hp : forall z, 0 <= 2 ^ z) by (intro z; apply Z.pow_nonneg; lia).
    destruct (0 <=? e).
    + intros H. replace k with (Z.pos m * 2 ^ e) by congruence.
      apply Z.mul_nonneg_nonneg; [lia | apply Hp].
    + destruct (_ =? 0); [|discriminate].
      intros H. replace k with (Z.pos m / 2 ^ (- e)) by congruence.
      apply Z_div_nonneg_nonneg; [lia | apply Hp].
Qed.

Lemma ofDecimal_sign (m e10 : Z) : signBit (ofDecimal m e10) = false.
Proof.
  unfold ofDecimal. destruct m as [|p|p]; try reflexivity.
  destruct (0 <=? e10).
  - apply ofZ_sign. apply Z.mul_nonneg_nonneg; [lia | apply Z.pow_nonneg; lia].
  - unfold ofQuotient, SFdiv.
    destruct (SFdiv_core_binary prec emax _ _ _ _) as [[mz ez] lz].
    apply binary_round_aux_sign.
Qed.

Lemma parseUnsigned_sign (s : jsstring) : signBit (parseUnsigned s) = false.
Proof.
  unfold parseUnsigned.
  destruct (startsWith (lit "Infinity") s); [reflexivity|].
  destruct (takeDigits s) as [ip r1].
  destruct (startsWith [0x2E] r1).
  - destruct (takeDigits (tl r1)) as [fp r3].
    destruct (ip ++ fp); [reflexivity | apply ofDecimal_sign].
  - destruct ip; [reflexivity | apply ofDecimal_sign].
Qed.

(** Without a minus sign [parseFloat] gives no negative Number. *)
Lemma parseFloat_sign (str : jsstring) :
  hasMinusSign str = false -> signBit (parseFloat str) = false.
Proof.
  unfold parseFloat, hasMinusSign. intros ->.
  destruct (startsWith [0x2B] _); apply parseUnsigned_sign.
Qed.

(** ** Durations *)

Section Durations.

Variable normalize : jsstring -> jsstring.

Lemma duration_of_test (testCase : JUnitTestCase) (useSuiteName : bool) :
  duration (convertToCTRFTest normalize testCase useSuiteName)
  = Math_round (mul (parseFloat (timeText testCase)) (ofZ 1000)).
Proof. reflexivity. Qed.

(** A missing or empty [time] gives the duration 0. *)
Lemma duration_without_time (testCase : JUnitTestCase) (useSuiteName : bool) :
  truthy (tc_time testCase) = false ->
  duration (convertToCTRFTest normalize testCase useSuiteName) = posZero.
Proof.
  intros H. rewrite duration_of_test. unfold timeText, or_else. rewrite H.
  vm_compute. reflexivity.
Qed.

(** A [time] in which [parseFloat] finds no number gives the duration NaN. *)
Lemma duration_without_number (testCase : JUnitTestCase) (useSuiteName : bool) :
  parseFloat (timeText testCase) = NaN ->
  duration (convertToCTRFTest normalize testCase useSuiteName) = NaN.
Proof. intros H. rewrite duration_of_test, H. reflexivity. Qed.

(** C6, as the code has it: a duration that is a finite Number is an
    integer, and it is not negative when the text of [time] (or ['0'] in its
    place) carries no minus sign. *)
Theorem duration_integer (testCase : JUnitTestCase) (useSuiteName : bool) :
  isFinite (duration (convertToCTRFTest normalize testCase useSuiteName))
  = true ->
  exists n : Z,
    toZ (duration (convertToCTRFTest normalize testCase useSuiteName)) = Some n
    /\ (hasMinusSign (timeText testCase) = false -> 0 <= n).
Proof.
  rewrite duration_of_test. intros Hfin.
  destruct (Math_round_integral _ Hfin) as [n Hn].
  exists n; split; [exact Hn|].
  intros Hsign. refine (toZ_nonneg _ n _ Hn).
  apply Math_round_sign, mul_thousand_sign, parseFloat_sign, Hsign.
Qed.

End Durations.

(** ** The converter on the sample inputs *)

Import Sample Inputs.

(** C2, the claim as written fails: with rerun lists only (scenario C of
    the specification, and the expectation of the repository's test of
    reruns) the history has two attempts, numbered 2 and 3; the first is
    not 1. *)
Lemma rerun_attempts_start_at_two :
  retryRecords rerunOnly = 2%nat
  /\ attemptNumbers (processTestWithRetries nfc rerunOnly) = [2; 3]%nat
  /\ hd_error (attemptNumbers (processTestWithRetries nfc rerunOnly))
     <> Some 1%nat.
Proof. repeat split. discriminate. Qed.

(** C3, the code at an empty suite name with [useSuiteName = true]: the
    name is built by a template literal, which prints `undefined` for the
    missing part; the unqualified name is not used, and with the test name
    empty too the literal ['Unnamed Test'] is not used either, although it
    is when [useSuiteName] is false. *)
Theorem suite_name_prints_undefined :
  name (convertToCTRFTest nfc noSuite true) = lit "undefined: test1"
  /\ name (convertToCTRFTest nfc noNames true) = lit "undefined: undefined"
  /\ name (convertToCTRFTest nfc noNames false) = lit "Unnamed Test".
Proof. repeat split. Qed.

(** C4, the code at an output of one control character: the guard looks at
    the text before it is sanitized, the only line is dropped after it, and
    the result is the empty array, not `undefined`. *)
Theorem control_noise_gives_empty_array :
  convertOutputToArray nfc (Some controlNoise) = Some []
  /\ stdout (convertToCTRFTest nfc
               (withOutput passing (Some controlNoise)) false) = Some [].
Proof. split; reflexivity. Qed.

(** C5, the code at a [time] that is no number: the duration is NaN, not
    0, while a missing and an empty [time] do give 0. *)
Theorem unparsable_time_gives_NaN :
  duration (convertToCTRFTest nfc (withTime (lit "abc")) false) = NaN
  /\ duration (convertToCTRFTest nfc (withTime []) false) = posZero
  /\ duration (convertToCTRFTest nfc (plain None None None) false) = posZero.
Proof.
  split; [apply duration_without_number; reflexivity|].
  split; apply duration_without_time; reflexivity.
Qed.

(** C6, the claim as written fails: the time "-1" gives the duration
    -1000. *)
Lemma negative_time_gives_negative_duration :
  toZ (duration (convertToCTRFTest nfc (withTime (lit "-1")) false))
  = Some (-1000)
  /\ ~ (exists n : Z,
          toZ (duration (convertToCTRFTest nfc (withTime (lit "-1")) false))
          = Some n /\ 0 <= n).
Proof.
  assert (H : toZ (duration (convertToCTRFTest nfc (withTime (lit "-1")) false))
              = Some (-1000)) by (vm_compute; reflexivity).
  split; [exact H|].
  intros [n [Hn Hpos]]. rewrite H in Hn.
  assert (n = -1000) by congruence. lia.
Qed.

(** A duration of scenario A: finite, hence the integer 500. *)
Lemma duration_integer_witness :
  isFinite (duration (convertToCTRFTest nfc passing false)) = true
  /\ exists n : Z,
       toZ (duration (convertToCTRFTest nfc passing false)) = Some n
       /\ (hasMinusSign (timeText passing) = false -> 0 <= n).
Proof.
  split; [vm_compute; reflexivity|].
  apply (duration_integer nfc passing false). vm_compute; reflexivity.
Defined.

(** C7, the code at the one-character string U+FA6C: the surrogate rule
    runs before the normalization, NFC then turns U+FA6C into U+242EE, a
    surrogate pair, and the result is returned with both halves in it;
    sanitizing that result again replaces the two halves, so the second
    pass does not give the first result back. *)
Lemma sanitizeString_not_idempotent :
  sanitizeString nfc (Some compatIdeograph) = Some [0xD850; 0xDEEE]
  /\ sanitizeString nfc (sanitizeString nfc (Some compatIdeograph))
     = Some (replacementChar ++ replacementChar)
  /\ sanitizeString nfc (sanitizeString nfc (Some compatIdeograph))
     <> sanitizeString nfc (Some compatIdeograph).
Proof. repeat split. discriminate. Qed.

(** A text with a BOM, a control character and a lone surrogate: its
    sanitized form has no surrogate left and is sanitized to itself. *)
Lemma sanitizeString_idempotent_witness :
  surrogateFree (sanitizeString nfc (Some dirtyText)) = true
  /\ (sanitizeString nfc (sanitizeString nfc (Some dirtyText))
      = sanitizeString nfc (Some dirtyText)
      /\ sanitizeString nfc None = None).
Proof.
  split; [reflexivity|].
  apply (sanitizeString_idempotent_without_surrogates nfc
           nfc_idempotent nfc_adds_no_bom_or_control (Some dirtyText)).
  reflexivity.
Defined.

(** An empty failure message next to the error message "boom", and an
    empty failure trace next to an error trace. *)
Lemma message_and_trace_fall_back_witness :
  (tc_failureMessage emptyFailureTexts = Some []
   /\ tc_errorMessage emptyFailureTexts = Some (lit "boom")
   /\ message (convertToCTRFTest nfc emptyFailureTexts false)
      = sanitizeString nfc (Some (lit "boom")))
  /\ (tc_failureTrace emptyFailureTexts = Some []
      /\ tc_errorTrace emptyFailureTexts = Some (lit "at test.js:25")
      /\ trace (convertToCTRFTest nfc emptyFailureTexts false)
         = sanitizeString nfc (Some (lit "at test.js:25"))).
Proof.
  destruct (message_and_trace_fall_back_on_empty nfc emptyFailureTexts false
              (lit "boom") (lit "at test.js:25")) as [Hmessage Htrace].
  split; (split; [reflexivity|]; split; [reflexivity|]).
  - apply Hmessage; [reflexivity | reflexivity | discriminate].
  - apply Htrace; [reflexivity | reflexivity | discriminate].
Defined.

(** Scenario B next to scenario A: one flaky test, two passed ones. *)
Lemma flaky_tests_passed_witness :
  (flaky (convertToCTRFTest nfc flakyTwice false) = Some true
   /\ status (convertToCTRFTest nfc flakyTwice false) = passed)
  /\ (s_flaky (summary (results (createCTRFReport nfc [] [flakyTwice; passing]
                                   None None None)))
      = Some 1%nat
      /\ (1 <= s_passed (summary (results (createCTRFReport nfc []
                                             [flakyTwice; passing]
                                             None None None))))%nat).
Proof.
  destruct (flaky_tests_passed nfc flakyTwice false [] [flakyTwice; passing]
              None None None 1%nat) as [Hstatus Hcount].
  split; (split; [reflexivity|]); [apply Hstatus | apply Hcount]; reflexivity.
Defined.

(** * Further properties *)

Import JS Num Convert Sample Views Env Inputs.

(** ** White space and [trim] *)

Lemma trimStart_blank (s : jsstring) :
  trimStart s = [] <-> isBlank s = true.
Proof.
  unfold isBlank. induction s as [|c s IH]; cbn [trimStart forallb].
  - tauto.
  - destruct (isWhiteSpace c); cbn [andb]; [exact IH|].
    split; discriminate.
Qed.

Lemma trimStart_head (s r : jsstring) (c : codeUnit) :
  trimStart s = c :: r -> isWhiteSpace c = false.
Proof.
  induction s as [|x s IH]; cbn [trimStart]; [discriminate|].
  destruct (isWhiteSpace x) eqn:E; [exact IH|].
  intros [= <- _]. exact E.
Qed.

Lemma trimStart_In (s : jsstring) (c : codeUnit) :
  In c (trimStart s) -> In c s.
Proof.
  induction s as [|x s IH]; cbn [trimStart]; [auto|].
  destruct (isWhiteSpace x); [right; auto | auto].
Qed.

Lemma isBlank_app (a b : jsstring) :
  isBlank (a ++ b) = isBlank a && isBlank b.
Proof. apply forallb_app. Qed.

Lemma isBlank_rev (s : jsstring) : isBlank (rev s) = isBlank s.
Proof.
  induction s as [|c s IH]; [reflexivity|].
  cbn [rev]. rewrite isBlank_app, IH. unfold isBlank; cbn [forallb].
  rewrite andb_true_r. apply andb_comm.
Qed.

(** A text that starts with a visible character is not blank. *)
Lemma visible_head_not_blank (c : codeUnit) (r : jsstring) :
  isWhiteSpace c = false -> isBlank (c :: r) = false.
Proof. intros H. unfold isBlank; cbn [forallb]. rewrite H. reflexivity. Qed.

(** [trim] gives the empty string exactly on blank text, and text that is
    not blank otherwise. *)
Lemma trim_blank (s : jsstring) : trim s = [] <-> isBlank s = true.
Proof.
  unfold trim, trimEnd. split.
  - intros H. apply (f_equal (@rev codeUnit)) in H.
    rewrite rev_involutive in H. cbn [rev] in H.
    apply trimStart_blank in H. rewrite isBlank_rev in H.
    apply trimStart_blank.
    destruct (trimStart s) as [|c r] eqn:E; [reflexivity|].
    rewrite (visible_head_not_blank c r (trimStart_head s r c E)) in H.
    discriminate H.
  - intros H. apply trimStart_blank in H. rewrite H. reflexivity.
Qed.

Lemma trim_not_blank (s : jsstring) :
  trim s = [] \/ isBlank (trim s) = false.
Proof.
  unfold trim, trimEnd.
  destruct (trimStart (rev (trimStart s))) as [|c r] eqn:E;
    [left; reflexivity|].
  right. rewrite isBlank_rev.
  apply visible_head_not_blank, (trimStart_head _ r c E).
Qed.

Lemma trim_In (s : jsstring) (c : codeUnit) : In c (trim s) -> In c s.
Proof.
  unfold trim, trimEnd. intros H.
  apply in_rev, trimStart_In in H. rewrite <- in_rev in H.
  apply trimStart_In, H.
Qed.

(** ** [split] *)

Lemma split_not_nil (sep : codeUnit) (s : jsstring) : split sep s <> [].
Proof.
  induction s as [|c s IH]; cbn [split]; [discriminate|].
  destruct (c =? sep); [discriminate|].
  destruct (split sep s); [contradiction | discriminate].
Qed.

Lemma split_length (sep : codeUnit) (s : jsstring) :
  List.length (split sep s) = S (occurrences sep s).
Proof.
  unfold occurrences. induction s as [|c s IH]; [reflexivity|].
  cbn [split filter]. destruct (c =? sep); cbn [List.length].
  - rewrite IH. reflexivity.
  - pose proof (split_not_nil sep s) as Hne.
    destruct (split sep s) as [|h t]; [contradiction|].
    cbn [List.length] in *. exact IH.
Qed.

Lemma split_In (sep : codeUnit) (s l : jsstring) (c : codeUnit) :
  In l (split sep s) -> In c l -> In c s.
Proof.
  revert l; induction s as [|x s IH]; intros l; cbn [split].
  - intros [<-|[]] [].
  - destruct (x =? sep).
    + intros [<-|Hl] Hc; [destruct Hc | right; eauto].
    + pose proof (split_not_nil sep s) as Hne.
      destruct (split sep s) as [|h t]; [contradiction|].
      intros [<-|Hl] Hc.
      * destruct Hc as [<-|Hc]; [left; reflexivity|].
        right. apply (IH h); [left; reflexivity | exact Hc].
      * right. apply (IH l); [right; exact Hl | exact Hc].
Qed.

(** ** Further properties of the sanitizer *)

Lemma isClean_In (s : jsstring) (c : codeUnit) :
  isClean s = true -> In c s -> isUnsafe c = false.
Proof.
  unfold isClean. rewrite forallb_forall. intros H Hc.
  apply negb_true_iff, H, Hc.
Qed.

Lemma isClean_incl (s t : jsstring) :
  (forall c, In c t -> In c s) -> isClean s = true -> isClean t = true.
Proof.
  unfold isClean. rewrite !forallb_forall. auto.
Qed.

(** The three replacement rules leave clean text as it is. *)
Lemma replaced_of_clean (s : jsstring) :
  isClean s = true ->
  replaceSurrogates (replaceControl (removeBOM s)) = s.
Proof.
  intros H.
  assert (Hu : forall c, In c s ->
             isBOM c = false /\ isControl c = false /\ isSurrogate c = false).
  { intros c Hc. pose proof (isClean_In s c H Hc) as E. unfold isUnsafe in E.
    apply orb_false_elim in E as [E E3]. apply orb_false_elim in E as [E1 E2].
    auto. }
  unfold removeBOM. rewrite filter_all
    by (intros c Hc; destruct (Hu c Hc) as [-> _]; reflexivity).
  unfold replaceControl. rewrite map_fixed
    by (intros c Hc; destruct (Hu c Hc) as [_ [-> _]]; reflexivity).
  unfold replaceSurrogates. apply flat_map_units.
  intros c Hc; destruct (Hu c Hc) as [_ [_ ->]]; reflexivity.
Qed.

(** The replacement rules turn text of white space and control characters
    into blank text. *)
Lemma replaced_of_noise (s : jsstring) :
  (forall c, In c s -> isWhiteSpace c || isControl c = true) ->
  isBlank (replaceSurrogates (replaceControl (removeBOM s))) = true.
Proof.
  intros H. unfold isBlank. apply forallb_forall. intros c Hc.
  unfold replaceSurrogates in Hc. apply in_flat_map in Hc as [x [Hx Hc]].
  unfold replaceControl in Hx. apply in_map_iff in Hx as [y [Hy Hin]].
  unfold removeBOM in Hin. apply filter_In in Hin as [Hin _].
  assert (Hws : isWhiteSpace x = true).
  { subst x. destruct (isControl y) eqn:E; [reflexivity|].
    specialize (H y Hin). rewrite E, orb_false_r in H. exact H. }
  assert (Hs : isSurrogate x = false).
  { unfold isWhiteSpace in Hws. unfold isSurrogate.
    destruct (0xD800 <=? x) eqn:E1; [|reflexivity].
    destruct (x <=? 0xDFFF) eqn:E2; [|reflexivity].
    apply Z.leb_le in E1, E2.
    repeat (apply orb_prop in Hws as [Hws|Hws]);
      try (apply Z.eqb_eq in Hws; lia).
    apply andb_prop in Hws as [_ Hws]. apply Z.leb_le in Hws. lia. }
  rewrite Hs in Hc. destruct Hc as [<-|[]]. exact Hws.
Qed.

Section FurtherSanitizer.

Variable normalize : jsstring -> jsstring.

Lemma sanitized_visible (str : option jsstring) (t : jsstring) :
  sanitizeString normalize str = Some t -> isBlank t = false.
Proof.
  destruct str as [s|]; cbn [sanitizeString]; [|discriminate].
  destruct (forallb isWhiteSpace _) eqn:E; [discriminate|].
  intros [= <-]. exact E.
Qed.

Lemma not_blank_visible (t : jsstring) :
  isBlank t = false -> exists c, In c t /\ isWhiteSpace c = false.
Proof.
  unfold isBlank. induction t as [|c t IH]; cbn [forallb]; [discriminate|].
  destruct (isWhiteSpace c) eqn:W; cbn [andb].
  - intros H. destruct (IH H) as [x [Hx Hw]]. exists x. split; [right|]; auto.
  - intros _. exists c. split; [left|]; auto.
Qed.

(** X1: a string that [sanitizeString] returns is never empty and never
    blank: it holds a code unit that is not white space. *)
Theorem sanitizeString_never_blank (str : option jsstring) (t : jsstring) :
  sanitizeString normalize str = Some t ->
  t <> [] /\ exists c, In c t /\ isWhiteSpace c = false.
Proof.
  intros H. apply sanitized_visible in H.
  split; [intros ->; discriminate H | apply not_blank_visible, H].
Qed.

(** X2: with a normalizer that brings in no BOM and no control character,
    as NFC does, a string that [sanitizeString] returns holds no BOM and
    none of the control characters the second rule replaces. *)
Theorem sanitizeString_no_bom_no_control (str : option jsstring)
    (t : jsstring) :
  (forall s c, In c (normalize s) -> isBOMOrControl c = true -> In c s) ->
  sanitizeString normalize str = Some t ->
  forall c, In c t -> isBOM c = false /\ isControl c = false.
Proof.
  intros Hnorm. destruct str as [s|]; cbn [sanitizeString]; [|discriminate].
  destruct (forallb isWhiteSpace _); [discriminate|].
  intros [= <-] c Hc.
  apply orb_false_elim. fold (isBOMOrControl c).
  destruct (isBOMOrControl c) eqn:E; [|reflexivity].
  rewrite (replaced_clean s c) in E; [discriminate E|].
  apply Hnorm; assumption.
Qed.

(** X3: text without BOM, control character or surrogate that is in
    normal form already and is not blank comes back unchanged. *)
Theorem sanitizeString_keeps_clean_text (s : jsstring) :
  isClean s = true -> normalize s = s -> isBlank s = false ->
  sanitizeString normalize (Some s) = Some s.
Proof.
  intros Hclean Hnfc Hvis. cbn [sanitizeString].
  rewrite (replaced_of_clean s Hclean), Hnfc.
  unfold isBlank in Hvis. rewrite Hvis. reflexivity.
Qed.

(** X4: text made of white space, BOMs and control characters only is
    sanitized to `undefined`, with a normalizer that keeps blank text blank,
    as NFC does. *)
Theorem sanitizeString_noise_is_undefined (s : jsstring) :
  (forall t, isBlank t = true -> isBlank (normalize t) = true) ->
  (forall c, In c s -> isWhiteSpace c || isControl c = true) ->
  sanitizeString normalize (Some s) = None.
Proof.
  intros Hnorm Hs. cbn [sanitizeString].
  pose proof (Hnorm _ (replaced_of_noise s Hs)) as H.
  unfold isBlank in H. rewrite H. reflexivity.
Qed.

(** X5: when the text is in normal form after the replacement rules, the
    string [sanitizeString] returns holds no surrogate code unit: the
    halves of a valid pair are replaced like lone ones. *)
Theorem sanitizeString_replaces_every_surrogate (s t : jsstring) :
  normalize (replaceSurrogates (replaceControl (removeBOM s)))
  = replaceSurrogates (replaceControl (removeBOM s)) ->
  sanitizeString normalize (Some s) = Some t ->
  existsb isSurrogate t = false.
Proof.
  intros Hnfc. cbn [sanitizeString]. rewrite Hnfc.
  destruct (forallb isWhiteSpace _); [discriminate|].
  intros [= <-].
  destruct (existsb isSurrogate _) eqn:E; [|reflexivity].
  apply existsb_exists in E as [c [Hc Hs]].
  unfold replaceSurrogates in Hc. apply in_flat_map in Hc as [x [_ Hc]].
  destruct (isSurrogate x) eqn:Hx.
  - cbn in Hc. destruct Hc as [<-|[<-|[<-|[]]]]; discriminate Hs.
  - destruct Hc as [<-|[]]. congruence.
Qed.

End FurtherSanitizer.

(** ** Further properties of the output-line splitter *)

Section FurtherSplitter.

Variable normalize : jsstring -> jsstring.

Lemma truthy_trim (s : jsstring) :
  truthy (Some (trim s)) = negb (isBlank s).
Proof.
  destruct (isBlank s) eqn:E.
  - apply trim_blank in E. rewrite E. reflexivity.
  - destruct (trim s) eqn:T; [|reflexivity].
    apply trim_blank in T. congruence.
Qed.

(** The guard of [convertOutputToArray]. *)
Lemma convertOutputToArray_guard (s : jsstring) :
  convertOutputToArray normalize (Some s)
  = if isBlank s then None
    else Some (map toString
                 (filter (fun line =>
                            truthy line
                            && (0 <? List.length (toString line))%nat)
                    (map (fun line =>
                            sanitizeString normalize (Some (trim line)))
                       (split 0x0A s)))).
Proof.
  unfold convertOutputToArray. rewrite truthy_trim.
  destruct s as [|c s]; [reflexivity|].
  cbn [truthy negb orb]. destruct (isBlank (c :: s)); reflexivity.
Qed.

(** X6: [convertOutputToArray] returns `undefined` exactly when the output
    is missing or blank (empty or white space only). *)
Theorem convertOutputToArray_undefined_iff (output : option jsstring) :
  convertOutputToArray normalize output = None
  <-> output = None \/ exists s, output = Some s /\ isBlank s = true.
Proof.
  destruct output as [s|].
  - rewrite convertOutputToArray_guard. destruct (isBlank s) eqn:E; split.
    + intros _. right. exists s. auto.
    + reflexivity.
    + discriminate.
    + intros [H|[s' [H H']]]; [discriminate H|].
      assert (s' = s) by congruence. subst s'. congruence.
  - split; [left|]; reflexivity.
Qed.

(** X7: no line of a returned array is empty or blank. *)
Theorem output_lines_not_blank (output : option jsstring)
    (lines : list jsstring) :
  convertOutputToArray normalize output = Some lines ->
  Forall (fun l => isBlank l = false) lines.
Proof.
  destruct output as [s|]; [|discriminate].
  rewrite convertOutputToArray_guard.
  destruct (isBlank s); [discriminate|]. intros [= <-].
  apply Forall_forall. intros l Hl.
  apply in_map_iff in Hl as [x [<- Hx]].
  apply filter_In in Hx as [Hx Htruthy].
  destruct x as [t|]; [|discriminate Htruthy].
  apply in_map_iff in Hx as [line [Hline _]].
  exact (sanitized_visible normalize (Some (trim line)) t Hline).
Qed.

(** X8: a returned array has at most one line more than the output has
    newline characters. *)
Theorem output_lines_bounded (s : jsstring) (lines : list jsstring) :
  convertOutputToArray normalize (Some s) = Some lines ->
  (List.length lines <= S (occurrences 0x0A%Z s))%nat.
Proof.
  rewrite convertOutputToArray_guard.
  destruct (isBlank s); [discriminate|]. intros [= <-].
  rewrite length_map, <- split_length.
  etransitivity; [apply filter_length_le|].
  rewrite length_map. apply Nat.le_refl.
Qed.

(** A trimmed line of clean text comes out of the sanitizer as it is, or
    not at all when it is empty. *)
Lemma sanitize_trimmed_clean (line : jsstring) :
  isClean line = true ->
  normalize (trim line) = trim line ->
  sanitizeString normalize (Some (trim line))
  = if (0 <? List.length (trim line))%nat then Some (trim line) else None.
Proof.
  intros Hclean Hnfc. cbn [sanitizeString].
  rewrite replaced_of_clean
    by (apply (isClean_incl line); [apply trim_In | exact Hclean]).
  rewrite Hnfc.
  destruct (trim_not_blank line) as [E|E].
  - rewrite E. reflexivity.
  - fold (isBlank (trim line)). rewrite E.
    destruct (trim line); [discriminate E | reflexivity].
Qed.

(** X9: for output without BOM, control character or surrogate, not
    blank, whose trimmed lines are in normal form, the array holds the
    trimmed lines that are not empty, in their order. *)
Theorem output_lines_of_clean_text (out : jsstring) :
  isClean out = true ->
  isBlank out = false ->
  (forall line,
      In line (split 0x0A out) -> normalize (trim line) = trim line) ->
  convertOutputToArray normalize (Some out)
  = Some (filter (fun line => (0 <? List.length line)%nat)
            (map trim (split 0x0A out))).
Proof.
  intros Hclean Hvis Hnfc. rewrite convertOutputToArray_guard, Hvis.
  f_equal.
  assert (Hlines : forall line, In line (split 0x0A out) ->
                     isClean line = true /\ normalize (trim line) = trim line).
  { intros line Hl. split; [|apply Hnfc, Hl].
    apply (isClean_incl out); [|exact Hclean].
    intros c Hc. apply (split_In 0x0A out line c Hl Hc). }
  clear Hnfc Hclean Hvis.
  induction (split 0x0A out) as [|line ls IH]; [reflexivity|].
  cbn [map filter].
  destruct (Hlines line (or_introl eq_refl)) as [Hc Hn].
  rewrite (sanitize_trimmed_clean line Hc Hn).
  assert (IH' := IH (fun l Hl => Hlines l (or_intror Hl))).
  destruct (trim line) as [|c r] eqn:E; cbn [List.length Nat.ltb Nat.leb].
  - cbn. exact IH'.
  - cbn. f_equal. exact IH'.
Qed.

End FurtherSplitter.

(** ** Further properties of the retry reconciler *)

Section FurtherReconciler.

Variable normalize : jsstring -> jsstring.

Lemma history_length (testCase : JUnitTestCase) :
  List.length (ti_retryAttempts (processTestWithRetries normalize testCase))
  = retryRecords testCase.
Proof.
  rewrite <- (length_map attemptContent), history_content, length_map.
  unfold allRetryRecords, retryRecords. rewrite !length_app. lia.
Qed.

(** X10: the retry count is the number of records of the four lists
    together, whether the attempt counter was reset or not. *)
Theorem retryCount_is_total (testCase : JUnitTestCase) :
  retryCount (processTestWithRetries normalize testCase)
  = retryRecords testCase.
Proof.
  rewrite <- history_length. reflexivity.
Qed.

(** X11: the history holds one attempt for each record, in the order
    flakyFailures, flakyErrors, rerunFailures, rerunErrors, each with status
    [failed], the sanitized message and trace and the split outputs of its
    record. *)
Theorem history_in_list_order (testCase : JUnitTestCase) :
  map attemptContent
    (ti_retryAttempts (processTestWithRetries normalize testCase))
  = map (recordContent normalize)
      (elements (tc_flakyFailures testCase)
       ++ elements (tc_flakyErrors testCase)
       ++ elements (tc_rerunFailures testCase)
       ++ elements (tc_rerunErrors testCase)).
Proof. apply history_content. Qed.

End FurtherReconciler.

(** ** Further properties of a converted test *)

Section FurtherTest.

Variable normalize : jsstring -> jsstring.

(** X12: [retries] and [retryAttempts] are there together or not at all;
    they are there exactly when the test case has a retry record, and then
    [retries] is the number of records and the length of [retryAttempts]. *)
Theorem retries_present_with_records (testCase : JUnitTestCase)
    (useSuiteName : bool) :
  match retries (convertToCTRFTest normalize testCase useSuiteName),
        retryAttempts (convertToCTRFTest normalize testCase useSuiteName)
  with
  | Some n, Some attempts =>
      (0 < n)%nat /\ n = retryRecords testCase /\ List.length attempts = n
  | None, None => retryRecords testCase = 0%nat
  | _, _ => False
  end.
Proof.
  cbn [convertToCTRFTest retries retryAttempts].
  pose proof (history_length normalize testCase) as Hlen.
  assert (Hcount : retryCount (processTestWithRetries normalize testCase)
                   = retryRecords testCase)
    by (rewrite <- Hlen; reflexivity).
  rewrite Hcount.
  destruct (0 <? retryRecords testCase)%nat eqn:E.
  - apply Nat.ltb_lt in E. auto.
  - apply Nat.ltb_ge in E. lia.
Qed.

Lemma toString_or_fallback (v : option jsstring) (fallback : jsstring) :
  fallback <> [] -> toString (or_else v (Some fallback)) <> [].
Proof.
  intros Hf. unfold or_else.
  destruct v as [[|c r]|]; cbn [truthy toString]; try exact Hf. discriminate.
Qed.

(** X13: the name of a converted test is never the empty string. *)
Theorem test_name_never_empty (testCase : JUnitTestCase)
    (useSuiteName : bool) :
  name (convertToCTRFTest normalize testCase useSuiteName) <> [].
Proof.
  cbn [convertToCTRFTest name]. apply toString_or_fallback. discriminate.
Qed.

(** X14: a failure message that is not empty decides the message, whatever
    the error message is: the message is the sanitized failure message. *)
Theorem failure_message_takes_precedence (testCase : JUnitTestCase)
    (useSuiteName : bool) :
  truthy (tc_failureMessage testCase) = true ->
  message (convertToCTRFTest normalize testCase useSuiteName)
  = sanitizeString normalize (tc_failureMessage testCase).
Proof.
  intros H. cbn [convertToCTRFTest message]. unfold or_else at 2.
  rewrite H. apply sanitized_or_undefined.
Qed.

(** X15: a failure message that is not empty but made of white space and
    control characters only leaves the message `undefined`, even when an
    error message is there (with a normalizer that keeps blank text
    blank). *)
Theorem blank_failure_message_hides_error (testCase : JUnitTestCase)
    (useSuiteName : bool) (failureMessage : jsstring) :
  (forall t, isBlank t = true -> isBlank (normalize t) = true) ->
  tc_failureMessage testCase = Some failureMessage ->
  failureMessage <> [] ->
  (forall c, In c failureMessage -> isWhiteSpace c || isControl c = true) ->
  message (convertToCTRFTest normalize testCase useSuiteName) = None.
Proof.
  intros Hnorm Hf Hne Hnoise. cbn [convertToCTRFTest message].
  rewrite Hf. unfold or_else at 2.
  destruct failureMessage as [|c r]; [contradiction|]. cbn [truthy].
  cbn [sanitizeString].
  pose proof (Hnorm _ (replaced_of_noise (c :: r) Hnoise)) as H.
  unfold isBlank in H. rewrite H. reflexivity.
Qed.

End FurtherTest.

(** ** Further properties of the report *)

Section FurtherReport.

Lemma countStatus_from_cases (normalize : jsstring -> jsstring) (b : bool)
    (st : Status) (l : list JUnitTestCase) :
  countStatus st
    (map (fun testCase => convertToCTRFTest normalize testCase b) l)
  = countCases (fun testCase => Status_eqb (statusByPriority testCase) st) l.
Proof.
  unfold countCases. induction l as [|testCase l IH]; [reflexivity|].
  cbn [map filter]. rewrite countStatus_cons, status_of_test.
  destruct (Status_eqb _ st); cbn [List.length]; rewrite IH; reflexivity.
Qed.

Lemma flaky_from_cases (normalize : jsstring -> jsstring) (b : bool)
    (l : list JUnitTestCase) :
  List.length
    (filter isFlakyTest
       (map (fun testCase => convertToCTRFTest normalize testCase b) l))
  = countCases hasFlaky l.
Proof.
  unfold countCases. induction l as [|testCase l IH]; [reflexivity|].
  cbn [map filter]. rewrite flaky_of_test.
  destruct (hasFlaky testCase); cbn [List.length]; rewrite IH; reflexivity.
Qed.

Lemma countCases_ext (p q : JUnitTestCase -> bool) (l : list JUnitTestCase) :
  (forall testCase, p testCase = q testCase) ->
  countCases p l = countCases q l.
Proof.
  intros H. unfold countCases. f_equal. apply filter_ext. exact H.
Qed.

Lemma countCases_app (p : JUnitTestCase -> bool) (l1 l2 : list JUnitTestCase) :
  countCases p (l1 ++ l2) = (countCases p l1 + countCases p l2)%nat.
Proof. unfold countCases. rewrite filter_app, length_app. reflexivity. Qed.

(** The counts of a summary, read off the statuses of the test cases. *)
Lemma summary_by_status (normalize : jsstring -> jsstring) (now : jsstring)
    (testCases : list JUnitTestCase) (toolName : option jsstring)
    (envProps : option (list (jsstring * jsstring)))
    (useSuiteName : option bool) :
  let s := summary (results (createCTRFReport normalize now testCases
                               toolName envProps useSuiteName)) in
  let has st testCase := Status_eqb (statusByPriority testCase) st in
  s_tests s = List.length testCases
  /\ s_passed s = countCases (has passed) testCases
  /\ s_failed s = countCases (has failed) testCases
  /\ s_skipped s = countCases (has skipped) testCases
  /\ flakyCount s = countCases hasFlaky testCases.
Proof.
  cbn zeta. unfold createCTRFReport, flakyCount.
  cbn [results summary s_tests s_passed s_failed s_skipped s_flaky].
  rewrite length_map, !countStatus_from_cases, flaky_from_cases.
  repeat split.
  destruct (0 <? countCases hasFlaky testCases)%nat eqn:E; [reflexivity|].
  apply Nat.ltb_ge in E. lia.
Qed.

(** X16: the counts of the summary read off the input: [tests] is the
    number of test cases, [passed], [failed] and [skipped] count the test
    cases by their retry lists and flags, and the flaky count (0 when the
    key is absent) counts those with a flaky list that is not empty. *)
Theorem summary_counts_from_input (normalize : jsstring -> jsstring)
    (now : jsstring) (testCases : list JUnitTestCase)
    (toolName : option jsstring)
    (envProps : option (list (jsstring * jsstring)))
    (useSuiteName : option bool) :
  let s := summary (results (createCTRFReport normalize now testCases
                               toolName envProps useSuiteName)) in
  s_tests s = List.length testCases
  /\ s_passed s = countCases isPassedCase testCases
  /\ s_failed s = countCases isFailedCase testCases
  /\ s_skipped s = countCases isSkippedCase testCases
  /\ flakyCount s = countCases hasFlaky testCases.
Proof.
  cbn zeta.
  destruct (summary_by_status normalize now testCases toolName envProps
              useSuiteName) as (-> & -> & -> & -> & ->).
  repeat split; apply countCases_ext; intros tc;
    unfold statusByPriority, isPassedCase, isFailedCase, isSkippedCase;
    destruct (hasFlaky tc), (hasRerun tc), (tc_hasFailure tc),
      (tc_hasError tc), (isSkipped tc); reflexivity.
Qed.

(** X17: the counts of the report of two lists put together are the sums
    of the counts of the reports of each, whatever the normalizer, the tool
    name, the environment and [useSuiteName] of each report. *)
Theorem summary_additive
    (normalize1 normalize2 normalize : jsstring -> jsstring)
    (now1 now2 now : jsstring) (cases1 cases2 : list JUnitTestCase)
    (toolName1 toolName2 toolName : option jsstring)
    (envProps1 envProps2 envProps : option (list (jsstring * jsstring)))
    (useSuiteName1 useSuiteName2 useSuiteName : option bool) :
  let s1 := summary (results (createCTRFReport normalize1 now1 cases1
                                toolName1 envProps1 useSuiteName1)) in
  let s2 := summary (results (createCTRFReport normalize2 now2 cases2
                                toolName2 envProps2 useSuiteName2)) in
  let s := summary (results (createCTRFReport normalize now (cases1 ++ cases2)
                               toolName envProps useSuiteName)) in
  s_tests s = (s_tests s1 + s_tests s2)%nat
  /\ s_passed s = (s_passed s1 + s_passed s2)%nat
  /\ s_failed s = (s_failed s1 + s_failed s2)%nat
  /\ s_skipped s = (s_skipped s1 + s_skipped s2)%nat
  /\ flakyCount s = (flakyCount s1 + flakyCount s2)%nat.
Proof.
  cbn zeta.
  destruct (summary_by_status normalize1 now1 cases1 toolName1 envProps1
              useSuiteName1) as (-> & -> & -> & -> & ->).
  destruct (summary_by_status normalize2 now2 cases2 toolName2 envProps2
              useSuiteName2) as (-> & -> & -> & -> & ->).
  destruct (summary_by_status normalize now (cases1 ++ cases2) toolName
              envProps useSuiteName) as (-> & -> & -> & -> & ->).
  rewrite length_app, !countCases_app. auto.
Qed.

(** X18: the tool name of a report is the given one when that is not
    empty and ['junit-to-ctrf'] otherwise, so never empty; the environment
    is the given mapping when it has an entry and absent otherwise, so never
    an empty mapping. *)
Theorem report_header (normalize : jsstring -> jsstring) (now : jsstring)
    (testCases : list JUnitTestCase) (toolName : option jsstring)
    (envProps : option (list (jsstring * jsstring)))
    (useSuiteName : option bool) :
  let r := results (createCTRFReport normalize now testCases toolName
                      envProps useSuiteName) in
  tool_name (tool r)
  = (if truthy toolName then toString toolName else lit "junit-to-ctrf")
  /\ tool_name (tool r) <> []
  /\ environment r <> Some []
  /\ environment r = (if nonEmpty envProps then envProps else None).
Proof.
  cbn zeta. unfold createCTRFReport. cbn [results tool tool_name environment].
  split; [|split; [|split]].
  - unfold or_else. destruct (truthy toolName); reflexivity.
  - apply toString_or_fallback. discriminate.
  - destruct envProps as [[|e r]|]; cbn [nonEmpty]; discriminate.
  - reflexivity.
Qed.

End FurtherReport.

(** ** The environment mapping *)

Lemma jsstring_eqb_eq (a b : jsstring) : jsstring_eqb a b = true <-> a = b.
Proof.
  revert b; induction a as [|x a IH]; intros [|y b]; cbn [jsstring_eqb];
    try (split; [discriminate | discriminate]); [tauto|].
  rewrite andb_true_iff, Z.eqb_eq, IH. split.
  - intros [-> ->]. reflexivity.
  - intros [= -> ->]. auto.
Qed.

Lemma jsstring_eqb_refl (a : jsstring) : jsstring_eqb a a = true.
Proof. apply jsstring_eqb_eq. reflexivity. Qed.

(** Reading a property after setting one: the value set, under its key;
    what was there, under any other. *)
Lemma getProperty_setProperty {V : Type} (k k' : jsstring) (v : V)
    (o : jsobject V) :
  getProperty k (setProperty k' v o)
  = if jsstring_eqb k' k then Some v else getProperty k o.
Proof.
  induction o as [|[k0 v0] o IH]; cbn [setProperty getProperty].
  - reflexivity.
  - destruct (jsstring_eqb k0 k') eqn:E0; cbn [getProperty].
    + apply jsstring_eqb_eq in E0. subst k0.
      destruct (jsstring_eqb k' k); reflexivity.
    + destruct (jsstring_eqb k0 k) eqn:E1; [|exact IH].
      apply jsstring_eqb_eq in E1. subst k0.
      destruct (jsstring_eqb k' k) eqn:E2; [|reflexivity].
      apply jsstring_eqb_eq in E2. subst k'.
      rewrite jsstring_eqb_refl in E0. discriminate E0.
Qed.

Lemma split_head (sep : codeUnit) (s : jsstring) :
  exists h t, split sep s = h :: t.
Proof.
  pose proof (split_not_nil sep s) as H.
  destruct (split sep s) as [|h t]; [contradiction | eauto].
Qed.

(** Element 0 of [prop.split('=')] is the text before the first [=]. *)
Lemma split_key (prop : jsstring) :
  nth_error (split 0x3D prop) 0 = Some (propKey prop).
Proof.
  induction prop as [|c r IH]; cbn [split propKey]; [reflexivity|].
  destruct (c =? 0x3D); [reflexivity|].
  destruct (split 0x3D r) as [|h t]; [discriminate IH|].
  cbn [nth_error] in *. congruence.
Qed.

Lemma split_no_separator (sep : codeUnit) (s : jsstring) :
  ~ In sep s -> split sep s = [s].
Proof.
  induction s as [|c r IH]; intros H; cbn [split]; [reflexivity|].
  destruct (c =? sep) eqn:E.
  - apply Z.eqb_eq in E. exfalso. apply H. left. exact E.
  - rewrite IH; [reflexivity|]. intros Hr. apply H. right. exact Hr.
Qed.

Lemma split_at_separator (sep : codeUnit) (a b : jsstring) :
  ~ In sep a -> split sep (a ++ sep :: b) = a :: split sep b.
Proof.
  induction a as [|c r IH]; intros H; cbn [app split].
  - rewrite Z.eqb_refl. reflexivity.
  - destruct (c =? sep) eqn:E.
    + apply Z.eqb_eq in E. exfalso. apply H. left. exact E.
    + rewrite IH; [reflexivity|]. intros Hr. apply H. right. exact Hr.
Qed.

Lemma propKey_before_separator (a b : jsstring) :
  ~ In 0x3D a -> propKey (a ++ 0x3D :: b) = a.
Proof.
  induction a as [|c r IH]; intros H; cbn [app propKey]; [reflexivity|].
  destruct (c =? 0x3D) eqn:E.
  - apply Z.eqb_eq in E. exfalso. apply H. left. exact E.
  - rewrite IH; [reflexivity|]. intros Hr. apply H. right. exact Hr.
Qed.

Lemma propKey_no_separator (a : jsstring) : ~ In 0x3D a -> propKey a = a.
Proof.
  induction a as [|c r IH]; intros H; cbn [propKey]; [reflexivity|].
  destruct (c =? 0x3D) eqn:E.
  - apply Z.eqb_eq in E. exfalso. apply H. left. exact E.
  - rewrite IH; [reflexivity|]. intros Hr. apply H. right. exact Hr.
Qed.

(** The mapping after one more property text. *)
Lemma envPropsObj_snoc (props : list jsstring) (prop k : jsstring) :
  getProperty k (envPropsObj (Some (props ++ [prop])))
  = if jsstring_eqb (propKey prop) k
    then Some (nth_error (split 0x3D prop) 1)
    else getProperty k (envPropsObj (Some props)).
Proof.
  unfold envPropsObj, fromEntries.
  rewrite map_app, fold_left_app. cbn [map fold_left].
  rewrite getProperty_setProperty, split_key. reflexivity.
Qed.

(** X19: a property text leaves the value of every key other than its
    own as the texts before it set it. *)
Theorem env_text_keeps_other_keys (props : list jsstring) (prop k : jsstring) :
  propKey prop <> k ->
  getProperty k (envPropsObj (Some (props ++ [prop])))
  = getProperty k (envPropsObj (Some props)).
Proof.
  intros H. rewrite envPropsObj_snoc.
  destruct (jsstring_eqb (propKey prop) k) eqn:E; [|reflexivity].
  apply jsstring_eqb_eq in E. contradiction.
Qed.

(** X20: the text [KEY=VALUE] sets [KEY] to [VALUE], whatever earlier
    texts set it to, and in [KEY=VALUE=MORE] what follows the second [=] is
    dropped. *)
Theorem env_value_stops_at_second_separator (props : list jsstring)
    (k v rest : jsstring) :
  ~ In 0x3D k -> ~ In 0x3D v ->
  getProperty k (envPropsObj (Some (props ++ [k ++ 0x3D :: v])))
  = Some (Some v)
  /\ getProperty k
       (envPropsObj (Some (props ++ [k ++ 0x3D :: v ++ 0x3D :: rest])))
     = Some (Some v).
Proof.
  intros Hk Hv. rewrite !envPropsObj_snoc.
  rewrite !propKey_before_separator, jsstring_eqb_refl by exact Hk.
  rewrite !split_at_separator by assumption.
  rewrite split_no_separator by exact Hv.
  destruct (split_head 0x3D rest) as [h [t ->]]. split; reflexivity.
Qed.

(** X21: a property text without [=] makes the whole text a key whose
    value is `undefined`. *)
Theorem env_text_without_separator (props : list jsstring) (prop : jsstring) :
  ~ In 0x3D prop ->
  getProperty prop (envPropsObj (Some (props ++ [prop]))) = Some None.
Proof.
  intros H. rewrite envPropsObj_snoc.
  rewrite propKey_no_separator, jsstring_eqb_refl by exact H.
  rewrite split_no_separator by exact H. reflexivity.
Qed.

(** ** The line number *)

Lemma decimalText_digit (d : Z) :
  isDigitValue d = true -> isDigit (d + 0x30) = true.
Proof.
  unfold isDigitValue, isDigit. rewrite !andb_true_iff, !Z.leb_le. lia.
Qed.

Lemma takeRadixDigits_decimal (ds : list Z) :
  forallb isDigitValue ds = true ->
  takeRadixDigits 10 (decimalText ds) = ds.
Proof.
  induction ds as [|d ds IH]; cbn [forallb decimalText map takeRadixDigits];
    [reflexivity|].
  rewrite andb_true_iff. intros [Hd Hds].
  unfold digitOfRadix. rewrite (decimalText_digit d Hd).
  unfold isDigitValue in Hd. apply andb_prop in Hd as [H0 H9].
  apply Z.leb_le in H0, H9.
  replace (d + 0x30 - 0x30) with d by lia.
  destruct (d <? 10) eqn:E; [|apply Z.ltb_ge in E; lia].
  fold (decimalText ds). rewrite (IH Hds). reflexivity.
Qed.

Lemma startsWith_unit_digit (c d : Z) (r : jsstring) :
  isDigit d = true -> isDigit c = false ->
  startsWith [c] (d :: r) = false.
Proof.
  intros Hd Hc. cbn [startsWith].
  destruct (c =? d) eqn:E; [|reflexivity].
  apply Z.eqb_eq in E. subst. congruence.
Qed.

(** [parseInt] reads a run of decimal digits as the integer it spells. *)
Lemma parseInt_decimal (ds : list Z) :
  ds <> [] -> forallb isDigitValue ds = true ->
  parseInt (decimalText ds) = ofZ (digitsValue ds).
Proof.
  intros Hne Hds.
  destruct ds as [|d ds]; [contradiction|].
  pose proof Hds as Hall. cbn [forallb] in Hds.
  apply andb_prop in Hds as [Hd Hrest].
  pose proof (decimalText_digit d Hd) as Hdig.
  assert (Hws : isWhiteSpace (d + 0x30) = false).
  { unfold isDigit in Hdig. apply andb_prop in Hdig as [H1 H2].
    apply Z.leb_le in H1, H2. unfold isWhiteSpace.
    repeat (apply orb_false_intro);
      try (apply Z.eqb_neq; lia).
    apply andb_false_intro1. apply Z.leb_gt. lia. }
  unfold parseInt. cbn [decimalText map trimStart]. rewrite Hws.
  rewrite !startsWith_unit_digit by (exact Hdig || reflexivity).
  unfold parseIntUnsigned.
  assert (Hx : startsWith (lit "0x") (d + 0x30 :: map (fun d => d + 0x30) ds)
               || startsWith (lit "0X") (d + 0x30 :: map (fun d => d + 0x30) ds)
               = false).
  { cbn [lit list_ascii_of_string map startsWith].
    destruct ds as [|d' ds']; cbn [map startsWith forallb] in *.
    - rewrite !andb_false_r. reflexivity.
    - apply andb_prop in Hrest as [Hd' _].
      pose proof (decimalText_digit d' Hd') as Hdig'.
      unfold isDigit in Hdig'. apply andb_prop in Hdig' as [H1 H2].
      apply Z.leb_le in H1, H2.
      assert (E1 : (Z.of_N (N_of_ascii "x") =? d' + 0x30) = false)
        by (apply Z.eqb_neq; cbn; lia).
      assert (E2 : (Z.of_N (N_of_ascii "X") =? d' + 0x30) = false)
        by (apply Z.eqb_neq; cbn; lia).
      rewrite E1, E2. cbn [andb]. rewrite !andb_false_r. reflexivity. }
  rewrite Hx.
  change (d + 0x30 :: map (fun d => d + 0x30) ds) with (decimalText (d :: ds)).
  rewrite (takeRadixDigits_decimal (d :: ds) Hall).
  reflexivity.
Qed.

(** X22: a [lineno] made of decimal digits gives the line number the
    digits spell, leading zeros included. *)
Theorem line_of_decimal_lineno (normalize : jsstring -> jsstring)
    (testCase : JUnitTestCase) (useSuiteName : bool) (ds : list Z) :
  ds <> [] -> forallb isDigitValue ds = true ->
  tc_lineno testCase = Some (decimalText ds) ->
  line (convertToCTRFTest normalize testCase useSuiteName)
  = Some (ofZ (digitsValue ds)).
Proof.
  intros Hne Hds Hl. cbn [convertToCTRFTest line]. rewrite Hl.
  cbn [toString].
  rewrite (parseInt_decimal ds Hne Hds).
  destruct ds; [contradiction | reflexivity].
Qed.

(** ** The further properties on sample inputs *)

(** The sample normalizer keeps blank text as it is. *)
Lemma nfc_blank (t : jsstring) : isBlank t = true -> isBlank (nfc t) = true.
Proof.
  intros H. unfold nfc. rewrite flat_map_units; [exact H|].
  intros c Hc. unfold isBlank in H. rewrite forallb_forall in H.
  specialize (H c Hc). unfold nfcUnit.
  destruct (c =? 0xFA6C) eqn:E; [|reflexivity].
  apply Z.eqb_eq in E. subst c. discriminate H.
Qed.

Lemma sanitizeString_never_blank_witness :
  sanitizeString nfc (Some dirtyText) = Some dirtyTextSanitized
  /\ (dirtyTextSanitized <> []
      /\ exists c, In c dirtyTextSanitized /\ isWhiteSpace c = false).
Proof.
  split; [reflexivity|].
  apply (sanitizeString_never_blank nfc (Some dirtyText) dirtyTextSanitized).
  reflexivity.
Defined.

Lemma sanitizeString_no_bom_no_control_witness :
  sanitizeString nfc (Some dirtyText) = Some dirtyTextSanitized
  /\ forall c, In c dirtyTextSanitized ->
               isBOM c = false /\ isControl c = false.
Proof.
  split; [reflexivity|].
  apply (sanitizeString_no_bom_no_control nfc (Some dirtyText)
           dirtyTextSanitized nfc_adds_no_bom_or_control).
  reflexivity.
Defined.

Lemma sanitizeString_keeps_clean_text_witness :
  isClean (lit "hello world") = true
  /\ nfc (lit "hello world") = lit "hello world"
  /\ isBlank (lit "hello world") = false
  /\ sanitizeString nfc (Some (lit "hello world")) = Some (lit "hello world").
Proof.
  repeat (split; [reflexivity|]).
  apply (sanitizeString_keeps_clean_text nfc (lit "hello world"));
    reflexivity.
Defined.

Lemma sanitizeString_noise_is_undefined_witness :
  (forall c, In c noiseText -> isWhiteSpace c || isControl c = true)
  /\ sanitizeString nfc (Some noiseText) = None.
Proof.
  assert (H : forall c, In c noiseText -> isWhiteSpace c || isControl c = true)
    by (intros c [<-|[<-|[<-|[<-|[]]]]]; reflexivity).
  split; [exact H|].
  apply (sanitizeString_noise_is_undefined nfc noiseText nfc_blank H).
Defined.

Lemma sanitizeString_replaces_every_surrogate_witness :
  sanitizeString nfc (Some emojiText)
  = Some (lit "hi " ++ replacementChar ++ replacementChar)
  /\ existsb isSurrogate (lit "hi " ++ replacementChar ++ replacementChar)
     = false.
Proof.
  split; [reflexivity|].
  apply (sanitizeString_replaces_every_surrogate nfc emojiText
           (lit "hi " ++ replacementChar ++ replacementChar));
    reflexivity.
Defined.

Lemma output_lines_not_blank_witness :
  convertOutputToArray nfc (Some threeLines) = Some [lit "a"; lit "b"]
  /\ Forall (fun l => isBlank l = false) [lit "a"; lit "b"].
Proof.
  split; [reflexivity|].
  apply (output_lines_not_blank nfc (Some threeLines) [lit "a"; lit "b"]).
  reflexivity.
Defined.

Lemma output_lines_bounded_witness :
  convertOutputToArray nfc (Some threeLines) = Some [lit "a"; lit "b"]
  /\ (List.length [lit "a"; lit "b"] <= S (occurrences 0x0A%Z threeLines))%nat.
Proof.
  split; [reflexivity|].
  apply (output_lines_bounded nfc threeLines [lit "a"; lit "b"]).
  reflexivity.
Defined.

Lemma output_lines_of_clean_text_witness :
  isClean threeLines = true
  /\ isBlank threeLines = false
  /\ convertOutputToArray nfc (Some threeLines)
     = Some (filter (fun line => (0 <? List.length line)%nat)
               (map trim (split 0x0A threeLines))).
Proof.
  split; [reflexivity|]. split; [reflexivity|].
  apply (output_lines_of_clean_text nfc threeLines); try reflexivity.
  intros line [<-|[<-|[<-|[]]]]; reflexivity.
Defined.

Lemma failure_message_takes_precedence_witness :
  truthy (tc_failureMessage bothMessages) = true
  /\ message (convertToCTRFTest nfc bothMessages false)
     = sanitizeString nfc (tc_failureMessage bothMessages).
Proof.
  split; [reflexivity|].
  apply (failure_message_takes_precedence nfc bothMessages false).
  reflexivity.
Defined.

Lemma blank_failure_message_hides_error_witness :
  tc_failureMessage blankFailureMessage = Some (lit " ")
  /\ tc_errorMessage blankFailureMessage = Some (lit "boom")
  /\ message (convertToCTRFTest nfc blankFailureMessage false) = None.
Proof.
  split; [reflexivity|]. split; [reflexivity|].
  apply (blank_failure_message_hides_error nfc blankFailureMessage false
           (lit " ") nfc_blank); [reflexivity | discriminate |].
  intros c [<-|[]]. reflexivity.
Defined.

Lemma env_text_keeps_other_keys_witness :
  propKey (lit "browser=chrome") <> lit "env"
  /\ getProperty (lit "env")
       (envPropsObj (Some ([lit "env=production"] ++ [lit "browser=chrome"])))
     = getProperty (lit "env") (envPropsObj (Some [lit "env=production"])).
Proof.
  assert (H : propKey (lit "browser=chrome") <> lit "env") by discriminate.
  split; [exact H|].
  apply (env_text_keeps_other_keys [lit "env=production"]
           (lit "browser=chrome") (lit "env") H).
Defined.

Lemma env_value_stops_at_second_separator_witness :
  getProperty (lit "env")
    (envPropsObj (Some ([lit "env=production"]
                        ++ [lit "env" ++ 0x3D :: lit "dev"])))
  = Some (Some (lit "dev"))
  /\ getProperty (lit "env")
       (envPropsObj (Some ([lit "env=production"]
                           ++ [lit "env" ++ 0x3D :: lit "dev"
                               ++ 0x3D :: lit "eu"])))
     = Some (Some (lit "dev")).
Proof.
  apply (env_value_stops_at_second_separator [lit "env=production"]
           (lit "env") (lit "dev") (lit "eu"));
    cbn; intuition discriminate.
Defined.

Lemma env_text_without_separator_witness :
  getProperty (lit "verbose")
    (envPropsObj (Some ([lit "env=production"] ++ [lit "verbose"])))
  = Some None.
Proof.
  apply (env_text_without_separator [lit "env=production"] (lit "verbose")).
  cbn; intuition discriminate.
Defined.

Lemma line_of_decimal_lineno_witness :
  tc_lineno lineFortyTwo = Some (lit "042")
  /\ line (convertToCTRFTest nfc lineFortyTwo false) = Some (ofZ 42).
Proof.
  split; [reflexivity|].
  apply (line_of_decimal_lineno nfc lineFortyTwo false [0; 4; 2]);
    [discriminate | reflexivity | reflexivity].
Defined.
